(** * FoodBridge backend API: a shallow embedding of the route handlers

    The repository is an Express application over a Sequelize store on
    SQLite.  The handlers are embedded as functions from a request and the
    current store to a response and the next store.  JavaScript values are
    kept dynamic (a field of [req.body] may hold anything JSON can carry),
    objects are finite maps from property names to values, and a thrown
    exception is an explicit result that the handler's [catch] turns into
    a response.

    Layout, following the source tree:
    - [Js]        values, truthiness, strings, [JSON.stringify]
    - [Store]     the two tables and the Sequelize calls the handlers make
    - [AuthGate]  middleware/auth.js, the token check with user lookup and
                  the helpers on user types
    - [Listings]  routes/listings.js
    - [AuthRoutes], [AuthRoutesBcrypt]  the two copies of the auth routes;
                  the first one exports a middleware of its own
    - [ProfileRoutes]  routes/profile.js
    - [Api]       the exposed operations as a transition system
    - [Vocabulary], [Demo]  the predicates of the statements, and a
      concrete library and store to run the handlers on
    The properties follow, one section per route. *)

From Stdlib Require Import ZArith Ascii String.
From stdpp Require Import gmap strings list fin_maps.

#[local] Open Scope Z_scope.

(* ===================================================================== *)
(** ** JavaScript values *)
(* ===================================================================== *)

Module Js.

(** Numbers are integers here: the handlers only ever count rows and read
    identifiers, so fractions and NaN never arise in a stored value. *)
#[warnings="-register-all"] Inductive jsval :=
  | JUndefined
  | JNull
  | JBool (b : bool)
  | JNum (n : Z)
  | JStr (s : string)
  | JArr (l : list jsval)
  | JObj (o : gmap string jsval).

(** [!!v] in JavaScript. *)
Definition truthy (v : jsval) : bool :=
  match v with
  | JUndefined | JNull => false
  | JBool b => b
  | JNum n => negb (n =? 0)
  | JStr s => negb (bool_decide (s = ""))
  | JArr _ | JObj _ => true
  end.

(** [a || b] *)
Definition js_or (a b : jsval) : jsval := if truthy a then a else b.

(** [v === 'lit'] for a string literal. *)
Definition str_is (v : jsval) (lit : string) : bool :=
  match v with JStr s => bool_decide (s = lit) | _ => false end.

(** [['a', 'b'].includes(v)] *)
Definition includes (lits : list string) (v : jsval) : bool :=
  existsb (str_is v) lits.

(** [o.k] on an object: a missing property reads as [undefined]. *)
Definition get (o : gmap string jsval) (k : string) : jsval :=
  default JUndefined (o !! k).

(** [v.k] on any value that is not [null] or [undefined]. *)
Definition member (v : jsval) (k : string) : jsval :=
  match v with JObj o => get o k | _ => JUndefined end.

(** [v.k] in general: reading a property of [undefined] or [null] throws a
    TypeError, which is [None] here. *)
Definition member_throw (v : jsval) (k : string) : option jsval :=
  match v with
  | JUndefined | JNull => None
  | _ => Some (member v k)
  end.

Definition is_undefined (v : jsval) : bool :=
  match v with JUndefined => true | _ => false end.

(** [a === b].  Two arrays or two objects are equal only when they are
    the same object, which values read from different places never are. *)
Definition strict_eq (a b : jsval) : bool :=
  match a, b with
  | JUndefined, JUndefined | JNull, JNull => true
  | JBool x, JBool y => eqb x y
  | JNum x, JNum y => x =? y
  | JStr x, JStr y => bool_decide (x = y)
  | _, _ => false
  end.

(** What [res.json] puts on the wire: [JSON.stringify] leaves out the
    properties whose value is [undefined] and writes [null] for an
    [undefined] array element. *)
Fixpoint stringify (v : jsval) : jsval :=
  match v with
  | JArr l =>
      JArr ((fun x => match x with JUndefined => JNull | _ => stringify x end) <$> l)
  | JObj o =>
      JObj (filter (fun kv => is_undefined kv.2 = false) (stringify <$> o))
  | _ => v
  end.

(** *** Strings *)

(** [s.startsWith(p)] *)
Definition startsWith (s p : string) : bool := String.prefix p s.

Fixpoint drop_chars (n : nat) (s : string) : string :=
  match n, s with
  | O, _ => s
  | S n', String _ s' => drop_chars n' s'
  | S _, EmptyString => EmptyString
  end.

(** [s.replace(pat, rep)] with a string pattern: only the first occurrence
    is replaced. *)
Fixpoint replace_first (pat rep s : string) : string :=
  if String.prefix pat s then rep +:+ drop_chars (String.length pat) s
  else match s with
       | EmptyString => EmptyString
       | String c s' => String c (replace_first pat rep s')
       end.

Fixpoint trim_start (s : string) : string :=
  match s with
  | String c s' => if Ascii.is_space c then trim_start s' else s
  | EmptyString => EmptyString
  end.

(** [s.trim()], for the ASCII white space characters. *)
Definition trim (s : string) : string :=
  String.rev (trim_start (String.rev (trim_start s))).

(** ASCII lower-casing, as a case-insensitive comparison needs it. *)
Definition lower (c : ascii) : ascii :=
  let n := nat_of_ascii c in
  if (Nat.leb 65 n && Nat.leb n 90)%bool then ascii_of_nat (n + 32) else c.

Fixpoint chars (s : string) : list ascii :=
  match s with
  | EmptyString => []
  | String c s' => c :: chars s'
  end.

(** The value of a digit, hexadecimal or decimal. *)
Definition hex_digit (c : ascii) : option Z :=
  let n := Z.of_nat (nat_of_ascii c) in
  if (48 <=? n) && (n <=? 57) then Some (n - 48)
  else if (97 <=? n) && (n <=? 102) then Some (n - 87)
  else if (65 <=? n) && (n <=? 70) then Some (n - 55)
  else None.

Definition dec_digit (c : ascii) : option Z :=
  match hex_digit c with Some n => if n <? 10 then Some n else None | None => None end.

Definition newline : string := String (ascii_of_nat 10) EmptyString.

End Js.
Export Js.

(** A row of a table, the body of a request and a JSON object are all
    property maps. *)
Abbreviation row := (gmap string jsval).

(* ===================================================================== *)
(** ** The store *)
(* ===================================================================== *)

Module Store.

Record db := mkDb { Users : list row; Listings : list row }.

Definition pk_of (r : row) : Z :=
  match get r "id" with JNum n => n | _ => 0 end.

(** The key an auto-increment column hands out next: one past the largest
    key in the table (no route deletes a row). *)
Definition next_pk (t : list row) : Z :=
  1 + foldr (fun r m => Z.max (pk_of r) m) 0 t.

(** *** A key given as text

    Express hands the [:id] segment of a path over as a string, and
    Sequelize passes a string on to SQLite as a text literal.  Compared
    with the INTEGER key column, a text that is a well-formed number
    (white space around it aside: an optional sign, digits with an
    optional fraction, an optional exponent) is read as that number; any
    other text equals no key.  The number is kept exact here, as a
    mantissa and a power of ten; SQLite rounds the literals that are not
    integers to a double. *)
Fixpoint read_digits (s : string) (acc : Z) (n : nat) : Z * nat * string :=
  match s with
  | String c s' =>
      match dec_digit c with
      | Some k => read_digits s' (10 * acc + k) (S n)
      | None => (acc, n, s)
      end
  | EmptyString => (acc, n, s)
  end.

Definition read_sign (s : string) : Z * string :=
  match s with
  | String "-" s' => (-1, s')
  | String "+" s' => (1, s')
  | _ => (1, s)
  end.

Definition numeric_text (s : string) : option (Z * Z) :=
  let '(sign, s1) := read_sign (trim_start s) in
  let '(i, ni, s2) := read_digits s1 0 0 in
  let '(m, nf, s3) :=
    match s2 with
    | String "." s' => read_digits s' i 0
    | _ => (i, 0%nat, s2)
    end in
  let '(e, e_ok, s4) :=
    match s3 with
    | String c s' =>
        if Ascii.eqb c "e" || Ascii.eqb c "E" then
          let '(esign, s'') := read_sign s' in
          let '(e, ne, s''') := read_digits s'' 0 0 in
          (esign * e, negb (Nat.eqb ne 0), s''')
        else (0, true, s3)
    | EmptyString => (0, true, s3)
    end in
  if negb (Nat.eqb (ni + nf) 0) && e_ok && bool_decide (trim_start s4 = "")
  then Some (sign * m, e - Z.of_nat nf) else None.

(** [id = 'text'] in SQLite, for the key [n] of a row. *)
Definition text_equals_key (s : string) (n : Z) : bool :=
  match numeric_text s with
  | Some (m, k) => if 0 <=? k then m * 10 ^ k =? n else m =? n * 10 ^ (- k)
  | None => false
  end.

Definition key_matches (pk : jsval) (r : row) : bool :=
  match pk with
  | JNum n => pk_of r =? n
  | JStr s => text_equals_key s (pk_of r)
  | _ => false
  end.

(** What [Model.findByPk] comes back with: a row, [null], or an error.
    Sequelize answers [null] to a key that is [null] or [undefined]
    without asking the store, queries for a number or a string, and
    throws "Argument passed to findByPk is invalid" for anything else. *)
Inductive lookup := Found (r : row) | NotFound | Throws.

Definition findByPk (t : list row) (pk : jsval) : lookup :=
  match pk with
  | JUndefined | JNull => NotFound
  | JNum _ | JStr _ =>
      match List.find (key_matches pk) t with
      | Some r => Found r
      | None => NotFound
      end
  | JBool _ | JArr _ | JObj _ => Throws
  end.

(** Equality of a stored column with the value of a [where] clause. *)
Definition where_eq (stored given : jsval) : bool :=
  match stored, given with
  | JStr a, JStr b => bool_decide (a = b)
  | JNum a, JNum b => a =? b
  | JBool a, JBool b => eqb a b
  | _, _ => false
  end.

(** [Model.findOne({ where: { col: v } })] *)
Definition findOne (t : list row) (col : string) (v : jsval) : option row :=
  List.find (fun r => where_eq (get r col) v) t.

(** [Model.findAll({ where: { col: v } })] *)
Definition findAll (t : list row) (col : string) (v : jsval) : list row :=
  List.filter (fun r => where_eq (get r col) v) t.

(** *** Model instances *)

(** The chosen columns of a row, as [attributes: [...]] selects them and
    as an UPDATE names them. *)
Definition attributes (cols : list string) (r : row) : row :=
  list_to_map ((fun c => (c, get r c)) <$> cols).

(** A model instance: the values of its attributes, and the attributes
    that were given another value since the row was read. *)
Record instance := mkInstance { dataValues : row; changed : list string }.

Definition instance_of (r : row) : instance := mkInstance r [].

(** [instance.k = v].  Only an attribute of the model has a setter: an
    assignment to any other name makes a property of the JavaScript
    object, which is neither written by [save()] nor part of [toJSON()].
    An attribute counts as changed when the new value differs from the
    one it had. *)
Definition set_attribute (attrs : list string) (k : string) (v : jsval)
    (inst : instance) : instance :=
  if bool_decide (k ∈ attrs) then
    mkInstance (<[k := v]> (dataValues inst))
               (if strict_eq v (get (dataValues inst) k) then changed inst
                else changed inst ++ [k])
  else inst.

(** [UPDATE ... SET fields WHERE id = inst.id] *)
Definition write (inst : row) (fields : list string) (t : list row) : list row :=
  (fun r => if pk_of r =? pk_of inst then attributes fields inst ∪ r else r) <$> t.

(** The instance [Model.create] builds at the time [now]: the values it
    is given, the next key and the two timestamps. *)
Definition new_instance (now : string) (vals : row) (t : list row) : row :=
  <["updatedAt" := JStr now]>
    (<["createdAt" := JStr now]> (<["id" := JNum (next_pk t)]> vals)).

(** A column that is given no value holds NULL. *)
Definition null_undefined (r : row) : row :=
  (fun v => match v with JUndefined => JNull | _ => v end) <$> r.

(** *** models/listing.js *)

(** The model declares four columns; Sequelize adds the key and the two
    timestamps. *)
Definition Listing_columns : list string := ["foodType"; "quantity"; "location"; "status"].

Definition Listing_attributes : list string :=
  "id" :: Listing_columns ++ ["createdAt"; "updatedAt"].

(** [allowNull: false] *)
Definition notNull (v : jsval) : bool :=
  match v with JUndefined | JNull => false | _ => true end.

(** [defaultValue: 'available'] is used when no status is given.  On
    SQLite an ENUM is a TEXT column and Sequelize does not check the
    value against the list, so a status that is given is stored as it
    is. *)
Definition Listing_with_status (vals : row) : row :=
  match get vals "status" with
  | JUndefined => <["status" := JStr "available"]> vals
  | _ => vals
  end.

(** The checks Sequelize runs before it writes a Listing: the three
    declared STRING columns have [allowNull: false], and a STRING column
    takes no array and no object. *)
Definition STRING_ok (v : jsval) : bool :=
  match v with JArr _ | JObj _ => false | _ => true end.

Definition Listing_validate (vals : row) : bool :=
  forallb (fun col => notNull (get vals col) && STRING_ok (get vals col))
          ["foodType"; "quantity"; "location"].

(** [models.Listing.create(vals)] at the time [now]: [None] is a rejected
    promise (a validation error); otherwise the new instance and the new
    table.  Of the values given, those of the declared columns are kept
    (the route gives no key and no timestamp); whatever else the object
    has is not part of the instance. *)
Definition Listing_create (now : string) (vals : row) (t : list row)
    : option (row * list row) :=
  let vals := Listing_with_status (attributes Listing_columns vals) in
  if Listing_validate vals then
    let inst := new_instance now vals t in
    Some (inst, t ++ [inst])
  else None.

Definition Listing_set := set_attribute Listing_attributes.

(** [listing.save()] at the time [now]: without a changed attribute
    nothing is written; otherwise the changed attributes are, together
    with [updatedAt]. *)
Definition Listing_save (now : string) (inst : instance) (t : list row)
    : instance * list row :=
  match changed inst with
  | [] => (inst, t)
  | fields =>
      let values := <["updatedAt" := JStr now]> (dataValues inst) in
      (mkInstance values [], write values (fields ++ ["updatedAt"]) t)
  end.

(** *** models/user.js *)

Definition User_columns : list string :=
  ["name"; "email"; "password"; "userType"; "organization"; "location"; "phone"].

(** Modelled from the spec: models/user.js is not among the sources.  The
    data model (section 3) gives a User a system-assigned unique
    identifier, a required and unique email, a role that is donor or
    receiver, and creation and update timestamps; registration (section
    4.3) persists the new User with the values it is given.  [None] is
    the rejected promise of a validation or constraint error. *)
Definition User_create (now : string) (vals : row) (t : list row)
    : option (row * list row) :=
  if notNull (get vals "email")
     && includes ["donor"; "receiver"] (get vals "userType")
     && negb (bool_decide (is_Some (findOne t "email" (get vals "email"))))
  then
    let inst := new_instance now vals t in
    Some (inst, t ++ [null_undefined inst])
  else None.

(** [_.omitBy(values, v => v === undefined)] *)
Definition omit_undefined (vals : row) : row :=
  filter (fun kv : string * jsval => is_undefined kv.2 = false) vals.

(** [_.intersection(Object.keys(rawAttributes), Object.keys(values))]:
    the columns among [cols] that [vals] has a property for. *)
Definition given (cols : list string) (vals : row) : list string :=
  List.filter (fun c => bool_decide (is_Some (vals !! c))) cols.

(** The message of the validation error for STRING columns that were
    given an array or an object. *)
Definition string_violation (col : string) : string :=
  "string violation: " +:+ col +:+ " cannot be an array or an object".

Definition validation_message (cols : list string) : string :=
  String.concat ("," +:+ newline) (string_violation <$> cols).

(** [user.update(vals)] at the time [now], on the instance [user]: a
    message is the rejected promise of a validation error; otherwise the
    updated instance and the new table.  The values that are not
    [undefined] are set, their columns and [updatedAt] are validated
    (the columns hold strings: section 3 of the spec) and, when one of
    them got another value, written. *)
Definition User_update (now : string) (user vals : row) (t : list row)
    : string + (row * list row) :=
  let vals := omit_undefined vals in
  let fields := given User_columns vals in
  let inst :=
    mkInstance (attributes fields vals ∪ user)
               (List.filter (fun c => negb (strict_eq (get vals c) (get user c))) fields) in
  match fields with
  | [] => inr (dataValues inst, t)
  | _ =>
      let values := <["updatedAt" := JStr now]> (dataValues inst) in
      match List.filter (fun c => negb (STRING_ok (get vals c))) fields with
      | [] =>
          match changed inst with
          | [] => inr (values, t)
          | _ => inr (values, write values (fields ++ ["updatedAt"]) t)
          end
      | cols => inl (validation_message cols)
      end
  end.

(** The object [models] that models/index.js exports has exactly the two
    model classes as properties. *)
Definition models : jsval :=
  JObj {[ "Listing" := JObj {[ "name" := JStr "Listing" ]};
          "User" := JObj {[ "name" := JStr "User" ]} ]}.

End Store.
Export Store.

(* ===================================================================== *)
(** ** Responses *)
(* ===================================================================== *)

Record response := mkRes { status : nat; body : jsval }.

(** [res.status(code).json(v)] *)
Definition res_json (code : nat) (v : jsval) : response :=
  mkRes code (stringify v).

Definition obj (kvs : list (string * jsval)) : jsval := JObj (list_to_map kvs).

Definition failure (code : nat) (msg : string) : response :=
  res_json code (obj [("success", JBool false); ("message", JStr msg)]).

Definition message (code : nat) (msg : string) : response :=
  res_json code (obj [("message", JStr msg)]).

(* ===================================================================== *)
(** ** Requests and the libraries the handlers call *)
(* ===================================================================== *)

(** The parts of an Express request the handlers read: the Authorization
    header, the parsed JSON body, the [:id] segment of the path and the
    [q] parameter of the query string. *)
Record request := mkReq {
  header_Authorization : option string;
  req_body : row;
  params_id : jsval;
  query_q : option string
}.

(** The [name] of the errors [jwt.verify] throws. *)
Inductive jwt_error := TokenExpiredError | JsonWebTokenError | NotBeforeError.

(** jsonwebtoken and bcryptjs are libraries, not code of this repository;
    the handlers are embedded over their interface.  [jwt_verify] stands
    for verification under the process-wide secret at the time of the
    request; [bcrypt_hash] takes the salt that the library draws;
    [Date_now] is the clock reading, in the form Sequelize stores and
    serialises it, at which a request is served.
    The login of the first copy of the auth routes checks the password
    with the User model's own [checkPassword]; the model is not among the
    sources, so that method is part of this interface. *)
Class Library := {
  jwt_sign : jsval -> string -> string;
  jwt_verify : string -> jwt_error + jsval;
  bcrypt_hash : string -> nat -> string -> string;
  bcrypt_compare : string -> string -> bool;
  checkPassword : row -> jsval -> bool;
  Date_now : request -> string
}.

(* ===================================================================== *)
(** ** middleware/auth.js: the gate with the user lookup *)
(* ===================================================================== *)

Module AuthGate.
Section Gate.
Context `{Library}.

(** What a middleware does: answer the request itself, or call [next()]
    with [req.user] set. *)
Inductive gate := Next (user : row) | Reply (r : response).

(** [models.User.findByPk(pk, { attributes: { exclude: ['password'] } })] *)
Definition User_findByPk_public (users : list row) (pk : jsval) : lookup :=
  match findByPk users pk with
  | Found r => Found (delete "password" r)
  | NotFound => NotFound
  | Throws => Throws
  end.

(** The [catch] of [auth] for the errors [jwt.verify] throws: each of
    them is a 401. *)
Definition auth_catch (e : jwt_error) : response :=
  match e with
  | TokenExpiredError => failure 401 "Token has expired. Please login again."
  | JsonWebTokenError => failure 401 "Invalid token. Please provide a valid token."
  | NotBeforeError => failure 401 "Token not active yet."
  end.

(** [auth] of lines 567-655.  An error that is none of the three of
    [jwt.verify], here the one [findByPk] throws, is answered 500. *)
Definition auth (req : request) (d : db) : gate :=
  match header_Authorization req with
  | None => Reply (failure 401 "Access denied. No authorization token provided.")
  | Some authHeader =>
      if negb (truthy (JStr authHeader)) then
        Reply (failure 401 "Access denied. No authorization token provided.")
      else if negb (startsWith authHeader "Bearer ") then
        Reply (failure 401 "Invalid token format. Please use Bearer authentication.")
      else
        let token := trim (replace_first "Bearer " "" authHeader) in
        if negb (truthy (JStr token)) then
          Reply (failure 401 "Access denied. No token provided.")
        else
          match jwt_verify token with
          | inl e => Reply (auth_catch e)
          | inr decoded =>
              match User_findByPk_public (Users d) (member decoded "id") with
              | Throws => Reply (failure 500 "Internal server error during authentication.")
              | NotFound => Reply (failure 401 "Token is invalid. User not found.")
              | Found user => Next user
              end
          end
  end.

(** [router.METHOD(path, auth, handler)] with this gate: the handler runs
    only after [next()], with the store as the gate left it.  The routes
    take [auth] from '../middleware/auth'; the text of that file holds
    this gate and, in the first copy of the auth routes, the middleware
    that copy exports (see [AuthRoutes.protected_by_payload]). *)
Definition protected (handler : row -> request -> db -> response * db)
    (req : request) (d : db) : response * db :=
  match auth req d with
  | Reply r => (r, d)
  | Next user => handler user req d
  end.

(** The helpers that restrict a route to some user types. *)
Definition requireUserType (allowedTypes : list string) (user : option row)
    : option response :=
  match user with
  | None => Some (failure 401 "Authentication required.")
  | Some u =>
      if negb (includes allowedTypes (get u "userType")) then
        Some (failure 403
                ("Access forbidden. Required user types: "
                 +:+ String.concat ", " allowedTypes))
      else None
  end.

Definition canClaimListings (user : option row) : option response :=
  match user with
  | None => Some (failure 401 "Authentication required.")
  | Some u =>
      if negb (str_is (get u "userType") "receiver") then
        Some (failure 403 "Only receivers can claim listings.")
      else None
  end.

Definition canCreateListings (user : option row) : option response :=
  match user with
  | None => Some (failure 401 "Authentication required.")
  | Some u =>
      if negb (str_is (get u "userType") "donor") then
        Some (failure 403 "Only donors can create listings.")
      else None
  end.

End Gate.
End AuthGate.
Export AuthGate.

(* ===================================================================== *)
(** ** routes/listings.js *)
(* ===================================================================== *)

Module Listings.
Section Routes.
Context `{Library}.

(** [include: [{ model: models.User, as: 'donor', attributes: [...] }]]:
    each listing carries the chosen columns of the user it belongs to. *)
Definition include_donor (cols : list string) (users : list row) (l : row) : row :=
  <["donor" := match findByPk users (get l "userId") with
               | Found u => JObj (attributes cols u)
               | _ => JNull
               end]> l.

Definition donor_public : list string := ["id"; "name"; "organization"; "location"].

Definition is_available (l : row) : bool := where_eq (get l "status") (JStr "available").

(** GET /listings *)
Definition get_listings (req : request) (d : db) : response * db :=
  let listings :=
    include_donor donor_public (Users d) <$> List.filter is_available (Listings d) in
  (res_json 200 (obj [("success", JBool true); ("data", JArr (JObj <$> listings))]), d).

(** The object the create handler hands to [models.Listing.create]: four
    properties of the body and the caller's key. *)
Definition listing_fields (user b : row) : row :=
  list_to_map [("foodType", get b "foodType"); ("quantity", get b "quantity");
               ("description", get b "description"); ("location", get b "location");
               ("userId", get user "id")].

(** POST /listings, after [auth] *)
Definition post_listings_handler (user : row) (req : request) (d : db)
    : response * db :=
  if negb (str_is (get user "userType") "donor") then
    (failure 403 "Only donors can create listings", d)
  else
    match Listing_create (Date_now req) (listing_fields user (req_body req)) (Listings d) with
    | Some (newListing, t) =>
        (res_json 201 (obj [("success", JBool true); ("data", JObj newListing)]),
         mkDb (Users d) t)
    | None => (failure 500 "Error creating listing", d)
    end.

Definition post_listings := protected post_listings_handler.

(** PATCH /listings/:id/claim, after [auth] *)
Definition patch_claim_handler (user : row) (req : request) (d : db)
    : response * db :=
  if negb (str_is (get user "userType") "receiver") then
    (failure 403 "Only receivers can claim listings", d)
  else
    match findByPk (Listings d) (params_id req) with
    | Throws => (failure 500 "Error claiming listing", d)
    | NotFound => (failure 404 "Listing not found", d)
    | Found stored =>
        let listing := instance_of stored in
        let listing := Listing_set "status" (JStr "claimed") listing in
        let listing := Listing_set "claimedBy" (get user "id") listing in
        let '(listing, t) := Listing_save (Date_now req) listing (Listings d) in
        (res_json 200 (obj [("success", JBool true); ("data", JObj (dataValues listing))]),
         mkDb (Users d) t)
    end.

Definition patch_claim := protected patch_claim_handler.

(** SQL [LIKE] without regard to case: [%] matches any run of characters
    and [_] any one character. *)
Fixpoint like (p s : list ascii) : bool :=
  match p with
  | [] => match s with [] => true | _ => false end
  | c :: p' =>
      if Ascii.eqb c "%" then
        (fix any (s : list ascii) : bool :=
           like p' s || match s with [] => false | _ :: s' => any s' end) s
      else
        match s with
        | [] => false
        | x :: s' =>
            (Ascii.eqb c "_" || Ascii.eqb (lower c) (lower x)) && like p' s'
        end
  end.

Definition iLike (pattern : string) (v : jsval) : bool :=
  match v with JStr s => like (chars pattern) (chars s) | _ => false end.

(** [models.Sequelize.Op.iLike], read off the exported [models] object;
    [None] is the TypeError of reading a property of [undefined]. *)
Definition models_Sequelize_Op_iLike : option jsval :=
  s ← member_throw models "Sequelize";
  op ← member_throw s "Op";
  member_throw op "iLike".

(** GET /listings/search *)
Definition get_search (req : request) (d : db) : response * db :=
  let q := query_q req in
  let available := List.filter is_available (Listings d) in
  let found :=
    match q with
    | Some qs =>
        if truthy (JStr qs) then
          match models_Sequelize_Op_iLike with
          | Some _ =>
              Some (List.filter
                      (fun l => iLike ("%" +:+ qs +:+ "%") (get l "foodType"))
                      available)
          | None => None
          end
        else Some available
    | None => Some available
    end in
  match found with
  | Some ls =>
      let listings := include_donor donor_public (Users d) <$> ls in
      (res_json 200 (obj [("success", JBool true); ("data", JArr (JObj <$> listings))]), d)
  | None => (failure 500 "Error searching listings", d)
  end.

(** The search as the specification words it, to compare the route with:
    the available listings, and for a query that is not empty those of
    them whose foodType contains the query, letter case aside. *)
Fixpoint is_prefix_ci (p s : list ascii) : bool :=
  match p, s with
  | [], _ => true
  | _ :: _, [] => false
  | c :: p', x :: s' => Ascii.eqb (lower c) (lower x) && is_prefix_ci p' s'
  end.

Fixpoint contains_ci (q s : list ascii) : bool :=
  is_prefix_ci q s || match s with [] => false | _ :: s' => contains_ci q s' end.

Definition search_as_specified (q : option string) (d : db) : list row :=
  let available := List.filter is_available (Listings d) in
  match q with
  | Some qs =>
      if bool_decide (qs = "") then available
      else List.filter
             (fun l => match get l "foodType" with
                       | JStr f => contains_ci (chars qs) (chars f)
                       | _ => false
                       end) available
  | None => available
  end.

End Routes.
End Listings.
Export Listings.

(* ===================================================================== *)
(** ** The auth routes, first copy (token for seven days, the password
       handed to the User model as it came) *)
(* ===================================================================== *)

Module AuthRoutes.
Section Routes.
Context `{Library}.

Definition dquote : string := String (ascii_of_nat 34) EmptyString.

Definition user_fields (b : row) (password : jsval) : row :=
  list_to_map [("name", get b "name"); ("email", get b "email");
               ("password", password); ("userType", get b "userType");
               ("organization", get b "organization");
               ("location", get b "location"); ("phone", get b "phone")].

(** POST /auth/register *)
Definition register (req : request) (d : db) : response * db :=
  let b := req_body req in
  if negb (truthy (get b "name")) || negb (truthy (get b "email"))
     || negb (truthy (get b "password")) || negb (truthy (get b "userType")) then
    (message 400 "Name, email, password, and userType are required", d)
  else if negb (includes ["donor"; "receiver"] (get b "userType")) then
    (message 400 ("userType must be either " +:+ dquote +:+ "donor" +:+ dquote
                  +:+ " or " +:+ dquote +:+ "receiver" +:+ dquote), d)
  else
    match findOne (Users d) "email" (get b "email") with
    | Some _ => (message 400 "User already exists with this email", d)
    | None =>
        match User_create (Date_now req) (user_fields b (get b "password")) (Users d) with
        | Some (user, t) =>
            let token := jwt_sign (obj [("id", get user "id")]) "7d" in
            let userResponse := delete "password" user in
            (res_json 201 (obj [("token", JStr token); ("user", JObj userResponse);
                                ("message", JStr "User registered successfully")]),
             mkDb t (Listings d))
        | None => (message 500 "Internal server error during registration", d)
        end
    end.

(** POST /auth/login *)
Definition login (req : request) (d : db) : response * db :=
  let b := req_body req in
  if negb (truthy (get b "email")) || negb (truthy (get b "password")) then
    (message 400 "Email and password are required", d)
  else
    match findOne (Users d) "email" (get b "email") with
    | None => (message 400 "Invalid email or password", d)
    | Some user =>
        if negb (checkPassword user (get b "password")) then
          (message 400 "Invalid email or password", d)
        else
          let token := jwt_sign (obj [("id", get user "id")]) "7d" in
          let userResponse := delete "password" user in
          (res_json 200 (obj [("token", JStr token); ("user", JObj userResponse);
                              ("message", JStr "Login successful")]), d)
    end.

(** [req.header('Authorization')?.replace('Bearer ', '')] *)
Definition header_token (req : request) : jsval :=
  match header_Authorization req with
  | Some h => JStr (replace_first "Bearer " "" h)
  | None => JUndefined
  end.

(** The part that GET /auth/verify and GET /auth/me share: the user the
    token names, or the response that ends the request.  Their [catch]
    answers 401 to two of the errors of [jwt.verify] and 500 to anything
    else, the error [findByPk] throws included. *)
Definition token_user (internal : string) (req : request) (d : db)
    : response + row :=
  match header_token req with
  | JStr token =>
      if negb (truthy (JStr token)) then inl (message 401 "No token provided")
      else
        match jwt_verify token with
        | inl TokenExpiredError => inl (message 401 "Token expired")
        | inl JsonWebTokenError => inl (message 401 "Invalid token")
        | inl NotBeforeError => inl (message 500 internal)
        | inr decoded =>
            match findByPk (Users d) (member decoded "id") with
            | Throws => inl (message 500 internal)
            | NotFound => inl (message 401 "Invalid token")
            | Found user => inr user
            end
        end
  | _ => inl (message 401 "No token provided")
  end.

(** GET /auth/verify *)
Definition verify (req : request) (d : db) : response * db :=
  match token_user "Internal server error during token verification" req d with
  | inl r => (r, d)
  | inr user =>
      let userResponse := delete "password" user in
      (res_json 200 (obj [("valid", JBool true); ("user", JObj userResponse);
                          ("message", JStr "Token is valid")]), d)
  end.

(** GET /auth/me *)
Definition me (req : request) (d : db) : response * db :=
  match token_user "Internal server error" req d with
  | inl r => (r, d)
  | inr user => (res_json 200 (JObj (delete "password" user)), d)
  end.

(** [auth] of lines 413-425, the middleware this copy exports
    ([module.exports = { router, auth }]): the decoded payload becomes
    [req.user], without a look at the store. *)
Inductive payload_gate := NextPayload (user : jsval) | ReplyPayload (r : response).

Definition auth (req : request) : payload_gate :=
  match header_token req with
  | JStr token =>
      if negb (truthy (JStr token)) then ReplyPayload (message 401 "No token provided")
      else
        match jwt_verify token with
        | inl _ => ReplyPayload (message 401 "Invalid or expired token")
        | inr decoded => NextPayload decoded
        end
  | _ => ReplyPayload (message 401 "No token provided")
  end.

(** The properties a handler can read off a payload as [req.user.k]; a
    payload that is not an object has none. *)
Definition payload_properties (decoded : jsval) : row :=
  match decoded with JObj o => o | _ => ∅ end.

(** [router.METHOD(path, auth, handler)] with the exported middleware,
    for a handler that only reads properties of [req.user], as those of
    routes/listings.js do. *)
Definition protected_by_payload (handler : row -> request -> db -> response * db)
    (req : request) (d : db) : response * db :=
  match auth req with
  | ReplyPayload r => (r, d)
  | NextPayload decoded => handler (payload_properties decoded) req d
  end.

End Routes.
End AuthRoutes.

(* ===================================================================== *)
(** ** The auth routes, second copy (token for one day, bcrypt in the
       handler, 409 for a taken email).  This copy hashes the password
       itself and compares against the stored column with
       [bcrypt.compare]: it is written for a model that stores the
       column as it is given. *)
(* ===================================================================== *)

Module AuthRoutesBcrypt.
Section Routes.
Context `{Library}.

(** POST /auth/register.  [salt] is the salt [bcrypt.hash] draws;
    [bcrypt.hash] rejects data that is not a string. *)
Definition register (salt : string) (req : request) (d : db) : response * db :=
  let b := req_body req in
  if negb (truthy (get b "name")) || negb (truthy (get b "email"))
     || negb (truthy (get b "password")) || negb (truthy (get b "userType")) then
    (message 400 "Missing required fields", d)
  else
    match findOne (Users d) "email" (get b "email") with
    | Some _ => (message 409 "User already exists", d)
    | None =>
        match get b "password" with
        | JStr password =>
            let hashedPassword := JStr (bcrypt_hash password 10 salt) in
            match User_create (Date_now req) (AuthRoutes.user_fields b hashedPassword)
                              (Users d) with
            | Some (user, t) =>
                let token :=
                  jwt_sign (obj [("id", get user "id"); ("userType", get user "userType")])
                           "1d" in
                (res_json 201 (obj [("token", JStr token);
                                    ("user", JObj (<["password" := JUndefined]> user))]),
                 mkDb t (Listings d))
            | None => (message 500 "Internal server error during registration", d)
            end
        | _ => (message 500 "Internal server error during registration", d)
        end
    end.

(** POST /auth/login.  [bcrypt.compare] rejects arguments that are not
    strings. *)
Definition login (req : request) (d : db) : response * db :=
  let b := req_body req in
  if negb (truthy (get b "email")) || negb (truthy (get b "password")) then
    (message 400 "Missing email or password", d)
  else
    match findOne (Users d) "email" (get b "email") with
    | None => (message 401 "Invalid credentials", d)
    | Some user =>
        match get b "password", get user "password" with
        | JStr password, JStr hash =>
            if negb (bcrypt_compare password hash) then
              (message 401 "Invalid credentials", d)
            else
              let token :=
                jwt_sign (obj [("id", get user "id"); ("userType", get user "userType")])
                         "1d" in
              (res_json 200 (obj [("token", JStr token);
                                  ("user", JObj (<["password" := JUndefined]> user))]), d)
        | _, _ => (message 500 "Internal server error during login", d)
        end
    end.

End Routes.
End AuthRoutesBcrypt.

(* ===================================================================== *)
(** ** routes/profile.js *)
(* ===================================================================== *)

Module ProfileRoutes.
Section Routes.
Context `{Library}.

(** GET /profile, after [auth] *)
Definition get_profile_handler (user : row) (req : request) (d : db)
    : response * db :=
  (res_json 200 (JObj (delete "password" user)), d).

Definition get_profile := protected get_profile_handler.

(** The object handed to [req.user.update]. *)
Definition profile_update (user b : row) : row :=
  list_to_map
    [("name", js_or (get b "name") (get user "name"));
     ("organization", js_or (get b "organization") (get user "organization"));
     ("location", js_or (get b "location") (get user "location"));
     ("phone", js_or (get b "phone") (get user "phone"))].

(** PUT /profile, after [auth].  The [catch] answers 500 with the
    message of the error. *)
Definition put_profile_handler (user : row) (req : request) (d : db)
    : response * db :=
  match User_update (Date_now req) user (profile_update user (req_body req)) (Users d) with
  | inr (updatedUser, t) =>
      (res_json 200 (JObj (delete "password" updatedUser)), mkDb t (Listings d))
  | inl error_message => (message 500 error_message, d)
  end.

Definition put_profile := protected put_profile_handler.

(** [parseInt(s)]: white space, a sign, then decimal digits, or
    hexadecimal ones after [0x]; [None] is NaN.  The result is the exact
    integer; JavaScript rounds it to a double once it has more than 53
    bits. *)
Fixpoint digits (digit : ascii -> option Z) (radix : Z) (acc : option Z) (s : string)
    : option Z :=
  match s with
  | String c s' =>
      match digit c with
      | Some n => digits digit radix (Some (radix * default 0 acc + n)) s'
      | None => acc
      end
  | EmptyString => acc
  end.

Definition parse_magnitude (s : string) : option Z :=
  match s with
  | String "0" (String "x" s') | String "0" (String "X" s') => digits hex_digit 16 None s'
  | _ => digits dec_digit 10 None s
  end.

Definition parseInt (v : jsval) : option Z :=
  match v with
  | JNum n => Some n
  | JStr s =>
      match trim_start s with
      | String "-" s' => Z.opp <$> parse_magnitude s'
      | String "+" s' => parse_magnitude s'
      | s' => parse_magnitude s'
      end
  | _ => None
  end.

(** [parseInt(listing.quantity) || 0] *)
Definition quantity_of (l : row) : Z := default 0 (parseInt (get l "quantity")).

(** [listings.filter(l => l.status === st).length] *)
Definition count_status (st : string) (ls : list row) : Z :=
  Z.of_nat (length (List.filter (fun l => str_is (get l "status") st) ls)).

Definition total_quantity (ls : list row) : Z :=
  foldl (fun total l => total + quantity_of l) 0 ls.

(** GET /profile/stats, after [auth] *)
Definition get_stats_handler (user : row) (req : request) (d : db)
    : response * db :=
  if str_is (get user "userType") "donor" then
    let listings := findAll (Listings d) "userId" (get user "id") in
    (res_json 200
       (obj [("totalListings", JNum (Z.of_nat (length listings)));
             ("availableListings", JNum (count_status "available" listings));
             ("claimedListings", JNum (count_status "claimed" listings));
             ("completedListings", JNum (count_status "completed" listings));
             ("totalDonations", JNum (total_quantity listings))]), d)
  else
    let listings := findAll (Listings d) "claimedBy" (get user "id") in
    (res_json 200
       (obj [("totalClaims", JNum (Z.of_nat (length listings)));
             ("activeClaims", JNum (count_status "claimed" listings));
             ("completedClaims", JNum (count_status "completed" listings));
             ("totalReceived", JNum (total_quantity listings))]), d).

Definition get_stats := protected get_stats_handler.

End Routes.
End ProfileRoutes.
Export ProfileRoutes.

(* ===================================================================== *)
(** ** The exposed operations as a transition system *)
(* ===================================================================== *)

Module Api.
Section Run.
Context `{Library}.

(** One request to one route.  Registration and login go through the
    second copy of the auth routes, which does its own hashing. *)
Inductive op :=
  | Register (salt : string) (req : request)
  | Login (req : request)
  | Verify (req : request)
  | Me (req : request)
  | GetListings (req : request)
  | PostListings (req : request)
  | PatchClaim (req : request)
  | GetSearch (req : request)
  | GetProfile (req : request)
  | PutProfile (req : request)
  | GetStats (req : request).

Definition run (o : op) (d : db) : response * db :=
  match o with
  | Register salt req => AuthRoutesBcrypt.register salt req d
  | Login req => AuthRoutesBcrypt.login req d
  | Verify req => AuthRoutes.verify req d
  | Me req => AuthRoutes.me req d
  | GetListings req => get_listings req d
  | PostListings req => post_listings req d
  | PatchClaim req => patch_claim req d
  | GetSearch req => get_search req d
  | GetProfile req => get_profile req d
  | PutProfile req => put_profile req d
  | GetStats req => get_stats req d
  end.

(** The store after a sequence of requests, served one after the other. *)
Definition exec (ops : list op) (d : db) : db :=
  foldl (fun d o => (run o d).2) d ops.

Definition empty_db : db := mkDb [] [].

End Run.
End Api.
Export Api.

(* ===================================================================== *)
(** ** Vocabulary of the properties *)
(* ===================================================================== *)

Module Vocabulary.
Section Vocabulary.
Context `{Library}.


(** A response that carries what was asked for. *)
Definition success (r : response) : Prop := status r = 200%nat \/ status r = 201%nat.

(** A user view without a password property. *)
Definition omits_password (v : jsval) : Prop :=
  exists u : row, v = JObj u /\ u !! "password" = None.

(** A sign-up body that passes the checks of both copies: name, email
    and password are non-empty strings and the user type is one of the
    two roles. *)
Record well_formed_signup (b : row) (e : string) : Prop := {
  signup_name : truthy (get b "name") = true;
  signup_email : get b "email" = JStr e;
  signup_email_given : e ≠ "";
  signup_password : exists pw, get b "password" = JStr pw /\ pw ≠ "";
  signup_role : get b "userType" = JStr "donor" \/ get b "userType" = JStr "receiver"
}.



(** The columns a profile update may write. *)
Definition profile_columns : list string := ["name"; "organization"; "location"; "phone"].

(** The four fields a registration cannot do without. *)
Definition signup_required : list string := ["name"; "email"; "password"; "userType"].

(** A login body with an email and a password. *)
Definition credentials_given (b : row) : Prop :=
  truthy (get b "email") = true /\ truthy (get b "password") = true.

(** A row whose [id] is a positive number. *)
Definition keyed (r : row) : Prop := get r "id" = JNum (pk_of r) /\ 0 < pk_of r.

(** A table of keyed rows, no two of them under one key. *)
Definition keyed_table (t : list row) : Prop := NoDup (pk_of <$> t) /\ Forall keyed t.

Definition well_keyed (d : db) : Prop := keyed_table (Users d) /\ keyed_table (Listings d).




End Vocabulary.
End Vocabulary.
Export Vocabulary.

(* ===================================================================== *)
(** ** A concrete library and a concrete store, to run the handlers on *)
(* ===================================================================== *)

Module Demo.

(** Tokens are the strings [t1] ... [t4], naming the users 1 ... 4;
    [expired] and [early] are refused for their dates, anything else for
    its signature. *)
Definition verify (t : string) : jwt_error + jsval :=
  if bool_decide (t = "t1") then inr (obj [("id", JNum 1)])
  else if bool_decide (t = "t2") then inr (obj [("id", JNum 2)])
  else if bool_decide (t = "t3") then inr (obj [("id", JNum 3)])
  else if bool_decide (t = "t4") then inr (obj [("id", JNum 4)])
  else if bool_decide (t = "expired") then inl TokenExpiredError
  else if bool_decide (t = "early") then inl NotBeforeError
  else inl JsonWebTokenError.

Definition sign (payload : jsval) (expiresIn : string) : string :=
  match member payload "id" with
  | JNum 1 => "t1" | JNum 2 => "t2" | JNum 3 => "t3" | JNum 4 => "t4"
  | _ => "t0"
  end.

Definition hash (data : string) (rounds : nat) (salt : string) : string :=
  "$2a$" +:+ salt +:+ data.

Definition compare (data hashed : string) : bool :=
  String.prefix "$2a$" hashed && String.prefix (String.rev data) (String.rev hashed).

Definition library : Library := {|
  jwt_sign := sign;
  jwt_verify := verify;
  bcrypt_hash := hash;
  bcrypt_compare := compare;
  checkPassword user v :=
    match v, get user "password" with
    | JStr s, JStr h => compare s h
    | _, _ => false
    end;
  Date_now _ := "2024-06-01T12:00:00.000Z"
|}.

Definition user (id : Z) (name email userType : string) : row :=
  list_to_map [("id", JNum id); ("name", JStr name); ("email", JStr email);
               ("password", JStr (hash "secret" 10 "salt"));
               ("userType", JStr userType); ("organization", JStr "Org");
               ("location", JStr "Cape Town"); ("phone", JStr "021 555 0100");
               ("createdAt", JStr "2024-01-15T10:30:00.000Z");
               ("updatedAt", JStr "2024-01-15T10:30:00.000Z")].

Definition thandi := user 1 "Thandi" "thandi@farm.example" "donor".
Definition bongani := user 2 "Bongani" "bongani@ngo.example" "receiver".
Definition carol := user 3 "Carol" "carol@ngo.example" "receiver".

Definition listing (id : Z) (foodType quantity st : string) : row :=
  list_to_map [("id", JNum id); ("foodType", JStr foodType); ("quantity", JStr quantity);
               ("location", JStr "Cape Town"); ("status", JStr st);
               ("createdAt", JStr "2024-03-01T08:00:00.000Z");
               ("updatedAt", JStr "2024-03-01T08:00:00.000Z")].

Definition bread := listing 1 "Bread" "5 kg" "available".
Definition bread_claimed := listing 1 "Bread" "5 kg" "claimed".
Definition apples := listing 2 "Apples" "10 boxes" "available".

Definition people : list row := [thandi; bongani; carol].

(** One available listing; the same listing once it is claimed. *)
Definition store : db := mkDb people [bread; apples].
Definition store_claimed : db := mkDb people [bread_claimed; apples].

Definition bearer (token : string) (b : row) (id : jsval) : request :=
  mkReq (Some ("Bearer " +:+ token)) b id None.

Definition anonymous (b : row) : request := mkReq None b JUndefined None.

(** A session from the empty store: a donor registers and lists bread, a
    receiver registers and claims it. *)
Definition signup (name email password userType : string) : row :=
  list_to_map [("name", JStr name); ("email", JStr email);
               ("password", JStr password); ("userType", JStr userType)].

Definition bread_offer : row :=
  list_to_map [("foodType", JStr "Bread"); ("quantity", JStr "5 kg");
               ("location", JStr "Cape Town")].

Definition session : list op :=
  [Register "s1" (anonymous (signup "Thandi" "thandi@farm.example" "secret" "donor"));
   PostListings (bearer "t1" bread_offer JUndefined);
   Register "s2" (anonymous (signup "Bongani" "bongani@ngo.example" "hunter2" "receiver"));
   PatchClaim (bearer "t2" ∅ (JNum 1))].

End Demo.

(* ===================================================================== *)
(** ** Lemmas on values and on the store *)
(* ===================================================================== *)

Section Basics.

Lemma str_is_true v lit : str_is v lit = true <-> v = JStr lit.
Proof.
  destruct v; simpl; try (split; [discriminate | intros; discriminate]).
  rewrite bool_decide_eq_true. split; [intros -> | intros [= ->]]; done.
Qed.

Lemma get_insert_eq (o : row) k v : get (<[k := v]> o) k = v.
Proof. unfold get. by rewrite lookup_insert_eq. Qed.

Lemma get_insert_ne (o : row) k k' v : k ≠ k' -> get (<[k := v]> o) k' = get o k'.
Proof. intros. unfold get. by rewrite lookup_insert_ne. Qed.


Lemma pk_of_insert_ne (o : row) k v : k ≠ "id" -> pk_of (<[k := v]> o) = pk_of o.
Proof. intros. unfold pk_of. by rewrite get_insert_ne. Qed.


(** The chosen columns of a row, one by one. *)
Lemma lookup_attributes cols (r : row) k :
  attributes cols r !! k = if bool_decide (k ∈ cols) then Some (get r k) else None.
Proof.
  unfold attributes. induction cols as [|c cols IH].
  - apply lookup_empty.
  - rewrite fmap_cons, list_to_map_cons. destruct (decide (c = k)) as [->|Hne].
    + rewrite lookup_insert_eq. rewrite bool_decide_eq_true_2; [done | constructor].
    + rewrite lookup_insert_ne by done. rewrite IH.
      apply (f_equal (fun b : bool => if b then Some (get r k) else None)).
      apply bool_decide_ext. rewrite elem_of_cons.
      split; [by right | intros [E|E]; [by symmetry in E | done]].
Qed.

Lemma lookup_attributes_None cols (r : row) k : k ∉ cols -> attributes cols r !! k = None.
Proof. intros. rewrite lookup_attributes. by rewrite bool_decide_eq_false_2. Qed.

Lemma get_attributes cols (r : row) k : k ∈ cols -> get (attributes cols r) k = get r k.
Proof. intros. unfold get at 1. rewrite lookup_attributes. by rewrite bool_decide_eq_true_2. Qed.

(** An UPDATE of columns other than the key leaves the key alone. *)
Lemma pk_of_written fields (inst r : row) :
  "id" ∉ fields -> pk_of (attributes fields inst ∪ r) = pk_of r.
Proof.
  intros Hid. unfold pk_of, get. by rewrite lookup_union_r by by apply lookup_attributes_None.
Qed.

(** What is found under a key matches the key. *)
Lemma findByPk_Found t pk r :
  findByPk t pk = Found r -> key_matches pk r = true /\ In r t.
Proof.
  unfold findByPk. destruct pk; try discriminate;
    (destruct (List.find _ t) as [x|] eqn:Hf; [|discriminate]);
    intros [= <-]; apply find_some in Hf as [? ?]; done.
Qed.

Lemma findByPk_number t n r : findByPk t (JNum n) = Found r -> pk_of r = n /\ In r t.
Proof.
  intros [Hk Hin]%findByPk_Found. simpl in Hk. apply Z.eqb_eq in Hk. done.
Qed.

(** A rewriting of the rows that leaves their keys alone does not change
    which row a key finds. *)
Lemma findByPk_fmap (f : row -> row) t pk :
  (forall r, pk_of (f r) = pk_of r) ->
  findByPk (f <$> t) pk =
    match findByPk t pk with Found r => Found (f r) | NotFound => NotFound | Throws => Throws end.
Proof.
  intros Hf.
  assert (Hfind : forall p, (forall r, p (f r) = p r) ->
            List.find p (f <$> t) = f <$> List.find p t).
  { intros p Hp. induction t as [|x t IH]; simpl; [done|].
    rewrite Hp. destruct (p x); [done | exact IH]. }
  assert (Hkey : forall r, key_matches pk (f r) = key_matches pk r).
  { intros r. unfold key_matches. by rewrite Hf. }
  unfold findByPk. destruct pk; try done;
    rewrite (Hfind _ Hkey); by destruct (List.find _ t).
Qed.


(** The row a key finds after an UPDATE that does not touch the key. *)
Lemma findByPk_write inst fields t pk :
  "id" ∉ fields ->
  findByPk (write inst fields t) pk =
    match findByPk t pk with
    | Found r => Found (if pk_of r =? pk_of inst then attributes fields inst ∪ r else r)
    | NotFound => NotFound
    | Throws => Throws
    end.
Proof.
  intros Hid. unfold write. apply findByPk_fmap.
  intros r. destruct (pk_of r =? pk_of inst); [by apply pk_of_written | done].
Qed.

(** A value that is there stays as it is when the row is stored. *)
Lemma get_null_undefined (r : row) k v :
  get r k = v -> v ≠ JUndefined -> get (null_undefined r) k = v.
Proof.
  unfold get, null_undefined. rewrite lookup_fmap.
  destruct (r !! k) as [x|]; simpl; [|done].
  intros -> Hv. by destruct v.
Qed.

(** The helpers on a few inputs. *)
Example trim_token : trim "  abc.def  " = "abc.def".
Proof. reflexivity. Qed.

Example replace_first_once :
  replace_first "Bearer " "" "Bearer Bearer x" = "Bearer x".
Proof. reflexivity. Qed.

Example parseInt_quantity : parseInt (JStr "5 kg") = Some 5.
Proof. reflexivity. Qed.

Example parseInt_words : parseInt (JStr "ten boxes") = None.
Proof. reflexivity. Qed.

Example parseInt_signed_hex : parseInt (JStr " -0x1F") = Some (-31).
Proof. reflexivity. Qed.

Example like_substring : iLike "%bre%" (JStr "Brown Bread") = true.
Proof. reflexivity. Qed.

Example like_no_match : iLike "%rice%" (JStr "Brown Bread") = false.
Proof. reflexivity. Qed.

Example contains_ci_bread : contains_ci (chars "BREAD") (chars "Brown bread") = true.
Proof. reflexivity. Qed.

Example stringify_drops_undefined :
  stringify (obj [("id", JNum 1); ("password", JUndefined)]) = obj [("id", JNum 1)].
Proof. vm_compute. reflexivity. Qed.

Example total_quantity_mixed :
  total_quantity [Demo.bread; Demo.apples; <["quantity" := JStr "some"]> Demo.bread] = 15.
Proof. vm_compute. reflexivity. Qed.

(** A key that comes as text, the way Express hands over [:id]. *)
Example key_as_text :
  text_equals_key "1" 1 = true /\ text_equals_key " 1.0 " 1 = true
  /\ text_equals_key "10e-1" 1 = true /\ text_equals_key "1abc" 1 = false
  /\ text_equals_key "" 0 = false.
Proof. by vm_compute. Qed.

Example findByPk_keys :
  findByPk (Listings Demo.store) (JStr "2") = Found Demo.apples
  /\ findByPk (Listings Demo.store) (JNum 2) = Found Demo.apples
  /\ findByPk (Listings Demo.store) (JStr "two") = NotFound
  /\ findByPk (Listings Demo.store) JUndefined = NotFound
  /\ findByPk (Listings Demo.store) (JBool true) = Throws.
Proof. repeat split; reflexivity. Qed.

End Basics.

(* ===================================================================== *)
(** ** Role checks of the listing routes *)
(* ===================================================================== *)

Section RoleChecks.
Context `{Library}.

(** C3.  When the gate lets a donor through, the claim route answers 403
    and the store stays as it was; when it lets a receiver through, the
    create route answers 403 and the store stays as it was, so no listing
    is changed or created. *)
Theorem wrong_role_is_forbidden (req : request) (d : db) (user : row) :
  auth req d = Next user ->
  (get user "userType" = JStr "donor" ->
     patch_claim req d = (failure 403 "Only receivers can claim listings", d))
  /\ (get user "userType" = JStr "receiver" ->
     post_listings req d = (failure 403 "Only donors can create listings", d)).
Proof.
  intros Hauth. split; intros Hrole.
  - unfold patch_claim, protected, patch_claim_handler. by rewrite Hauth, Hrole.
  - unfold post_listings, protected, post_listings_handler. by rewrite Hauth, Hrole.
Qed.

End RoleChecks.

Lemma wrong_role_is_forbidden_witness :
  status (patch_claim (H := Demo.library) (Demo.bearer "t1" ∅ (JNum 1)) Demo.store).1 = 403%nat
  /\ (patch_claim (H := Demo.library) (Demo.bearer "t1" ∅ (JNum 1)) Demo.store).2 = Demo.store
  /\ status (post_listings (H := Demo.library)
               (Demo.bearer "t2" {[ "foodType" := JStr "Rice" ]} JUndefined) Demo.store).1
     = 403%nat.
Proof.
  pose proof (wrong_role_is_forbidden (H := Demo.library)
                (Demo.bearer "t1" ∅ (JNum 1)) Demo.store
                (delete "password" Demo.thandi) eq_refl) as [Hd _].
  pose proof (wrong_role_is_forbidden (H := Demo.library)
                (Demo.bearer "t2" {[ "foodType" := JStr "Rice" ]} JUndefined) Demo.store
                (delete "password" Demo.bongani) eq_refl) as [_ Hr].
  rewrite (Hd eq_refl), (Hr eq_refl). repeat split.
Defined.

(* ===================================================================== *)
(** ** The claim route *)
(* ===================================================================== *)

Section Claim.
Context `{Library}.

(** The gate reads the Users table only. *)
Lemma auth_same_users req d d' : Users d' = Users d -> auth req d' = auth req d.
Proof. intros E. unfold auth. by rewrite E. Qed.

(** The two assignments of the claim handler and the [save()] after
    them: [claimedBy] is no attribute of the Listing model, so only the
    status is set; a listing that is claimed already is not written at
    all, any other gets the status and a new [updatedAt]. *)
Lemma claim_save now (v : jsval) (l : row) t :
  Listing_save now
    (Listing_set "claimedBy" v (Listing_set "status" (JStr "claimed") (instance_of l))) t
  = if str_is (get l "status") "claimed"
    then (mkInstance (<["status" := JStr "claimed"]> l) [], t)
    else
      let values := <["updatedAt" := JStr now]> (<["status" := JStr "claimed"]> l) in
      (mkInstance values [], write values ["status"; "updatedAt"] t).
Proof.
  unfold Listing_set, set_attribute, instance_of, Listing_save.
  assert (E1 : bool_decide ("status" ∈ Listing_attributes) = true) by reflexivity.
  assert (E2 : bool_decide ("claimedBy" ∈ Listing_attributes) = false) by reflexivity.
  rewrite E1. cbn [dataValues changed]. rewrite E2. cbn [dataValues changed].
  destruct (get l "status") as [| |b|n|s|a|o]; try reflexivity.
  simpl. destruct (decide (s = "claimed")) as [->|Hne]; [reflexivity|].
  rewrite !bool_decide_eq_false_2 by congruence. reflexivity.
Qed.

(** The status of a row after an UPDATE that sets it. *)
Lemma written_status (values r : row) :
  get values "status" = JStr "claimed" ->
  get (attributes ["status"; "updatedAt"] values ∪ r) "status" = JStr "claimed".
Proof.
  intros Hs. unfold get at 1.
  erewrite lookup_union_Some_l; [reflexivity|].
  rewrite lookup_attributes, Hs. reflexivity.
Qed.

(** One claim by a receiver on a listing the key finds: no look at the
    current status, the answer is 200 and the listing is stored as
    claimed. *)
Lemma patch_claim_found req d user l :
  auth req d = Next user ->
  get user "userType" = JStr "receiver" ->
  findByPk (Listings d) (params_id req) = Found l ->
  status (patch_claim req d).1 = 200%nat
  /\ Users (patch_claim req d).2 = Users d
  /\ exists l', findByPk (Listings (patch_claim req d).2) (params_id req) = Found l'
                /\ get l' "status" = JStr "claimed".
Proof.
  intros Hauth Hrole Hfind.
  unfold patch_claim, protected, patch_claim_handler.
  rewrite Hauth, Hrole, Hfind. simpl negb. cbv iota.
  rewrite claim_save.
  destruct (str_is (get l "status") "claimed") eqn:Hst; cbv zeta; cbn [fst snd Users Listings].
  - repeat split; [done..|]. exists l. split; [done|]. by apply str_is_true.
  - repeat split; [done..|].
    rewrite findByPk_write, Hfind.
    2:{ intros Hin. repeat (apply elem_of_cons in Hin as [? | Hin]); try done.
        by apply elem_of_nil in Hin. }
    eexists. split; [reflexivity|].
    rewrite !pk_of_insert_ne, Z.eqb_refl by done.
    apply written_status. by rewrite get_insert_ne, get_insert_eq.
Qed.

(** C1, as the code has it.  A claim by a receiver on a listing that
    exists is answered 200 whatever the listing's status, also when that
    is claimed already, and the listing is stored with status claimed.
    So when a second receiver claims the same listing afterwards, that
    claim is answered 200 as well, and the stored status is claimed. *)
Theorem claim_succeeds_whatever_the_status
    (req req2 : request) (d : db) (user user2 l : row) :
  auth req d = Next user ->
  get user "userType" = JStr "receiver" ->
  findByPk (Listings d) (params_id req) = Found l ->
  auth req2 d = Next user2 ->
  get user2 "userType" = JStr "receiver" ->
  params_id req2 = params_id req ->
  let out1 := patch_claim req d in
  let out2 := patch_claim req2 out1.2 in
  status out1.1 = 200%nat
  /\ (exists l1, findByPk (Listings out1.2) (params_id req) = Found l1
                 /\ get l1 "status" = JStr "claimed")
  /\ status out2.1 = 200%nat
  /\ (exists l2, findByPk (Listings out2.2) (params_id req) = Found l2
                 /\ get l2 "status" = JStr "claimed").
Proof.
  intros Hauth Hrole Hfind Hauth2 Hrole2 Hid out1 out2.
  destruct (patch_claim_found _ _ _ _ Hauth Hrole Hfind) as (H1 & Hu & l1 & Hf1 & Hs1).
  fold out1 in H1, Hu, Hf1.
  assert (Hauth2' : auth req2 out1.2 = Next user2).
  { rewrite <- Hauth2. by apply auth_same_users. }
  rewrite <- Hid in Hf1.
  destruct (patch_claim_found _ _ _ _ Hauth2' Hrole2 Hf1) as (H2 & _ & l2 & Hf2 & Hs2).
  fold out2 in H2, Hf2. rewrite Hid in Hf1, Hf2.
  eauto 10.
Qed.

End Claim.

(** C1 at work: Bongani (token [t2]) and then Carol (token [t3]) claim the
    listing of bread. *)
Lemma claim_succeeds_whatever_the_status_witness :
  let out1 := patch_claim (H := Demo.library) (Demo.bearer "t2" ∅ (JStr "1")) Demo.store in
  let out2 := patch_claim (H := Demo.library) (Demo.bearer "t3" ∅ (JStr "1")) out1.2 in
  status out1.1 = 200%nat /\ status out2.1 = 200%nat
  /\ exists l2, findByPk (Listings out2.2) (JStr "1") = Found l2
                /\ get l2 "status" = JStr "claimed".
Proof.
  pose proof (claim_succeeds_whatever_the_status (H := Demo.library)
                (Demo.bearer "t2" ∅ (JStr "1")) (Demo.bearer "t3" ∅ (JStr "1")) Demo.store
                (delete "password" Demo.bongani) (delete "password" Demo.carol) Demo.bread
                eq_refl eq_refl eq_refl eq_refl eq_refl eq_refl)
    as (H1 & _ & H2 & H3).
  cbv zeta in *. split; [exact H1 | split; [exact H2 | exact H3]].
Defined.

(** C1 as stated fails.  The listing is claimed already, and a
    receiver's claim on it is answered 200, not 409; and of the claims of
    two receivers on an available listing, one after the other, both are
    answered 200, not exactly one. *)
Lemma claim_on_claimed_listing_is_accepted :
  let req := Demo.bearer "t3" ∅ (JStr "1") in
  let out := patch_claim (H := Demo.library) req Demo.store_claimed in
  let out1 := patch_claim (H := Demo.library) (Demo.bearer "t2" ∅ (JStr "1")) Demo.store in
  let out2 := patch_claim (H := Demo.library) req out1.2 in
  (exists l, findByPk (Listings Demo.store_claimed) (JStr "1") = Found l
             /\ get l "status" = JStr "claimed")
  /\ status out.1 = 200%nat
  /\ status out.1 ≠ 409%nat
  /\ (exists l, findByPk (Listings Demo.store) (JStr "1") = Found l
                /\ get l "status" = JStr "available")
  /\ status out1.1 = 200%nat
  /\ status out2.1 = 200%nat.
Proof.
  cbv zeta. split; [eexists; split; reflexivity|]. split; [by vm_compute|].
  split; [by vm_compute|]. split; [eexists; split; reflexivity|].
  split; by vm_compute.
Qed.

(* ===================================================================== *)
(** ** The create route *)
(* ===================================================================== *)

Section Create.
Context `{Library}.

Lemma listing_fields_get user b col :
  col ∈ ["foodType"; "quantity"; "location"] ->
  get (listing_fields user b) col = get b col.
Proof.
  intros Hin. repeat (apply elem_of_cons in Hin as [-> | Hin]); try done.
  by apply elem_of_nil in Hin.
Qed.

Lemma listing_fields_no_status user b : get (listing_fields user b) "status" = JUndefined.
Proof. done. Qed.

(** The values of a new listing, column by column. *)
Lemma new_listing_get vals col :
  col ∈ ["foodType"; "quantity"; "location"] ->
  get (Listing_with_status (attributes Listing_columns vals)) col = get vals col.
Proof.
  intros Hin. unfold Listing_with_status.
  assert (Hcol : get (attributes Listing_columns vals) col = get vals col).
  { apply get_attributes. unfold Listing_columns.
    repeat (apply elem_of_cons in Hin as [-> | Hin]);
      [repeat constructor.. | by apply elem_of_nil in Hin]. }
  destruct (get (attributes Listing_columns vals) "status"); try done.
  rewrite get_insert_ne; [done|]. intros <-.
  repeat (apply elem_of_cons in Hin as [? | Hin]); try done.
  by apply elem_of_nil in Hin.
Qed.

(** A required column that is missing makes the model refuse the row. *)
Lemma Listing_create_missing now vals t col :
  col ∈ ["foodType"; "quantity"; "location"] ->
  get vals col = JUndefined ->
  Listing_create now vals t = None.
Proof.
  intros Hin Hget. unfold Listing_create.
  pose proof (new_listing_get vals col Hin) as Hnew. rewrite Hget in Hnew.
  set (v := Listing_with_status (attributes Listing_columns vals)) in *.
  assert (Hv : Listing_validate v = false); [|by rewrite Hv].
  unfold Listing_validate. cbn [forallb].
  repeat (apply elem_of_cons in Hin as [-> | Hin]);
    try (rewrite Hnew; cbn [notNull andb]; by rewrite ?andb_false_r).
  by apply elem_of_nil in Hin.
Qed.

(** C9, as the code has it.  When a donor's create request lacks
    foodType, quantity or location, the model refuses the row, the
    handler's catch answers with the generic 500 "Error creating listing",
    and the store stays as it was: no listing is persisted. *)
Theorem missing_required_field_is_a_server_error
    (req : request) (d : db) (user : row) (col : string) :
  auth req d = Next user ->
  get user "userType" = JStr "donor" ->
  col ∈ ["foodType"; "quantity"; "location"] ->
  req_body req !! col = None ->
  post_listings req d = (failure 500 "Error creating listing", d).
Proof.
  intros Hauth Hrole Hin Habsent.
  unfold post_listings, protected, post_listings_handler.
  rewrite Hauth, Hrole. simpl negb. cbv iota.
  fold (listing_fields user (req_body req)).
  rewrite (Listing_create_missing _ _ _ col); [done | done |].
  rewrite listing_fields_get by done. unfold get. by rewrite Habsent.
Qed.

End Create.

Lemma missing_required_field_is_a_server_error_witness :
  let b : row := {[ "quantity" := JStr "5 kg"; "location" := JStr "Cape Town" ]} in
  post_listings (H := Demo.library) (Demo.bearer "t1" b JUndefined) Demo.store
  = (failure 500 "Error creating listing", Demo.store).
Proof.
  intros b.
  apply (missing_required_field_is_a_server_error (H := Demo.library)
           (Demo.bearer "t1" b JUndefined) Demo.store (delete "password" Demo.thandi)
           "foodType").
  - reflexivity.
  - reflexivity.
  - apply list_elem_of_here.
  - reflexivity.
Defined.

(** C9 as stated fails: a donor's request without foodType is answered
    500, not 400. *)
Lemma missing_food_type_is_not_a_400 :
  let b : row := {[ "quantity" := JStr "5 kg"; "location" := JStr "Cape Town" ]} in
  let out := post_listings (H := Demo.library) (Demo.bearer "t1" b JUndefined) Demo.store in
  b !! "foodType" = None
  /\ status out.1 = 500%nat
  /\ status out.1 ≠ 400%nat
  /\ member (body out.1) "message" = JStr "Error creating listing".
Proof.
  cbv zeta. split; [by vm_compute|]. split; [by vm_compute|].
  split; [by vm_compute|]. by vm_compute.
Qed.

(* ===================================================================== *)
(** ** The profile update, case by case *)
(* ===================================================================== *)

Section UpdateCases.
Context `{Library}.

Lemma strict_eq_true a b : strict_eq a b = true -> a = b.
Proof.
  destruct a, b; simpl; try discriminate; try done.
  - intros E. by apply eqb_prop in E as ->.
  - intros E. by apply Z.eqb_eq in E as ->.
  - intros E. by apply bool_decide_eq_true in E as ->.
Qed.

Lemma filter_nil {A} (f : A -> bool) l x :
  List.filter f l = [] -> x ∈ l -> f x = false.
Proof.
  intros Hnil Hin. destruct (f x) eqn:E; [|done].
  assert (Hx : In x (List.filter f l)) by (apply filter_In; by rewrite <- list_elem_of_In).
  rewrite Hnil in Hx. destruct Hx.
Qed.

Lemma filter_cons {A} (f : A -> bool) l x l' :
  List.filter f l = x :: l' -> x ∈ l /\ f x = true.
Proof.
  intros Hcons.
  assert (Hx : In x (List.filter f l)) by (rewrite Hcons; by left).
  apply filter_In in Hx as [Hin Hf]. by rewrite list_elem_of_In.
Qed.

Lemma elem_of_given cols (vals : row) c :
  c ∈ given cols vals <-> c ∈ cols /\ is_Some (vals !! c).
Proof.
  unfold given. rewrite !list_elem_of_In, filter_In, bool_decide_eq_true. done.
Qed.

Lemma lookup_omit_undefined (vals : row) k :
  omit_undefined vals !! k =
    match vals !! k with
    | Some v => if is_undefined v then None else Some v
    | None => None
    end.
Proof.
  unfold omit_undefined. rewrite map_lookup_filter.
  destruct (vals !! k) as [v|]; [|done].
  cbn [mbind option_bind].
  destruct (is_undefined v) eqn:E;
    case_guard as Hg; cbn [snd] in Hg; try done; congruence.
Qed.

(** The object a profile update writes has four properties. *)
Lemma profile_update_lookup user b k :
  k ∉ ["name"; "organization"; "location"; "phone"] ->
  profile_update user b !! k = None.
Proof.
  intros Hk. unfold profile_update. simpl.
  repeat (rewrite lookup_insert_ne;
          [| intros <-; apply Hk; repeat constructor]).
  apply lookup_empty.
Qed.

Lemma profile_update_get user b k :
  k ∈ profile_columns ->
  profile_update user b !! k = Some (js_or (get b k) (get user k)).
Proof.
  intros Hk. repeat (apply elem_of_cons in Hk as [-> | Hk]); try done.
  by apply elem_of_nil in Hk.
Qed.

Lemma profile_columns_are_columns k : k ∈ profile_columns -> k ∈ User_columns.
Proof.
  intros Hk. unfold User_columns.
  repeat (apply elem_of_cons in Hk as [-> | Hk]);
    [repeat constructor.. | by apply elem_of_nil in Hk].
Qed.

Lemma not_a_profile_column k :
  k ∈ ["id"; "email"; "password"; "userType"] ->
  k ∉ ["name"; "organization"; "location"; "phone"].
Proof.
  intros Hk Hin.
  repeat (apply elem_of_cons in Hk as [-> | Hk]);
    try (by apply elem_of_nil in Hk);
    repeat (apply elem_of_cons in Hin as [? | Hin]); try done;
    by apply elem_of_nil in Hin.
Qed.

(** The columns [user.update] is given by the profile route: those of
    the four whose value, the one of the body or else the one of the
    instance, is not [undefined]. *)
Lemma profile_fields user b c :
  c ∈ given User_columns (omit_undefined (profile_update user b)) <->
  c ∈ profile_columns /\ js_or (get b c) (get user c) ≠ JUndefined.
Proof.
  rewrite elem_of_given, lookup_omit_undefined. split.
  - intros [_ Hsome].
    destruct (decide (c ∈ profile_columns)) as [Hc|Hc].
    + split; [done|]. rewrite profile_update_get in Hsome by done.
      intros E. rewrite E in Hsome. by destruct Hsome.
    + rewrite profile_update_lookup in Hsome by done. by destruct Hsome.
  - intros [Hc Hv]. split; [by apply profile_columns_are_columns|].
    rewrite profile_update_get by done.
    by destruct (js_or (get b c) (get user c)).
Qed.



(** What the profile handler does, in the three ways it can go: the
    update is refused and answered 500; nothing has another value and
    nothing is written; or the given columns and [updatedAt] are
    written. *)
Lemma put_profile_handler_cases user req d :
  let vals := omit_undefined (profile_update user (req_body req)) in
  let fields := given User_columns vals in
  let out := put_profile_handler user req d in
  ((exists c, c ∈ fields /\ STRING_ok (get vals c) = false)
     /\ status out.1 = 500%nat /\ out.2 = d)
  \/ ((forall c, c ∈ fields -> STRING_ok (get vals c) = true /\ get vals c = get user c)
     /\ status out.1 = 200%nat /\ Users out.2 = Users d /\ Listings out.2 = Listings d)
  \/ ((forall c, c ∈ fields -> STRING_ok (get vals c) = true)
     /\ status out.1 = 200%nat /\ Listings out.2 = Listings d
     /\ Users out.2
        = write (<["updatedAt" := JStr (Date_now req)]> (attributes fields vals ∪ user))
                (fields ++ ["updatedAt"]) (Users d)).
Proof.
  intros vals fields out. unfold out, put_profile_handler, User_update.
  fold vals. fold fields. cbn [dataValues changed].
  clear out. clearbody fields. clearbody vals.
  destruct fields as [|c0 fields0] eqn:Hfields.
  { right. left. split; [intros c Hc; by apply elem_of_nil in Hc|].
    split; [reflexivity|]. split; reflexivity. }
  rewrite <- Hfields.
  destruct (List.filter (fun c => negb (STRING_ok (get vals c))) fields) as [|bad rest] eqn:Hbad.
  - assert (Hok : forall c, c ∈ fields -> STRING_ok (get vals c) = true).
    { intros c Hc. apply (filter_nil _ _ c Hbad) in Hc. by apply negb_false_iff in Hc. }
    destruct (List.filter (fun c => negb (strict_eq (get vals c) (get user c))) fields)
      as [|ch rest'] eqn:Hch.
    + right. left. split; [|split; [reflexivity | split; reflexivity]].
      intros c Hc. split; [by apply Hok|].
      apply (filter_nil _ _ c Hch) in Hc. apply negb_false_iff in Hc.
      by apply strict_eq_true.
    + right. right. split; [exact Hok|]. split; [reflexivity|]. split; [reflexivity|].
      cbn [snd Users]. by rewrite Hfields.
  - left. split; [|split; reflexivity].
    apply filter_cons in Hbad as [Hin Hneg]. exists bad. split; [exact Hin|].
    by apply negb_true_iff in Hneg.
Qed.


End UpdateCases.

(* ===================================================================== *)
(** ** The status of a listing *)
(* ===================================================================== *)

Section Status.
Context `{Library}.

Lemma protected_cases handler req d :
  (exists r, auth req d = Reply r /\ protected handler req d = (r, d))
  \/ (exists user, auth req d = Next user /\ protected handler req d = handler user req d).
Proof. unfold protected. destruct (auth req d); eauto. Qed.


Lemma login_store req d : (AuthRoutesBcrypt.login req d).2 = d.
Proof. unfold AuthRoutesBcrypt.login. repeat case_match; done. Qed.

Lemma verify_store req d : (AuthRoutes.verify req d).2 = d.
Proof. unfold AuthRoutes.verify. by case_match. Qed.

Lemma me_store req d : (AuthRoutes.me req d).2 = d.
Proof. unfold AuthRoutes.me. by case_match. Qed.

Lemma get_search_store req d : (get_search req d).2 = d.
Proof. unfold get_search. repeat case_match; done. Qed.


Lemma get_stats_store req d : (get_stats req d).2 = d.
Proof.
  unfold get_stats.
  destruct (protected_cases get_stats_handler req d) as [(r & _ & ->)|(u & _ & ->)];
    [done|].
  unfold get_stats_handler. by case_match.
Qed.

Lemma get_profile_store req d : (get_profile req d).2 = d.
Proof.
  unfold get_profile.
  destruct (protected_cases get_profile_handler req d) as [(r & _ & ->)|(u & _ & ->)]; done.
Qed.








End Status.


(* ===================================================================== *)
(** ** The two gates *)
(* ===================================================================== *)

Section Gate.
Context `{Library}.

Lemma truthy_JStr s : truthy (JStr s) = true <-> s ≠ "".
Proof.
  simpl. rewrite negb_true_iff, bool_decide_eq_false. done.
Qed.

Lemma bearer_startsWith raw : startsWith ("Bearer " +:+ raw) "Bearer " = true.
Proof. by destruct raw. Qed.

Lemma bearer_replace raw : replace_first "Bearer " "" ("Bearer " +:+ raw) = raw.
Proof. by destruct raw. Qed.

Lemma bearer_truthy raw : truthy (JStr ("Bearer " +:+ raw)) = true.
Proof. reflexivity. Qed.

(** The gate on a header [Bearer <raw>]. *)
Lemma auth_bearer req d raw :
  header_Authorization req = Some ("Bearer " +:+ raw) ->
  auth req d =
    if negb (truthy (JStr (trim raw))) then
      Reply (failure 401 "Access denied. No token provided.")
    else
      match jwt_verify (trim raw) with
      | inl e => Reply (auth_catch e)
      | inr decoded =>
          match User_findByPk_public (Users d) (member decoded "id") with
          | Throws => Reply (failure 500 "Internal server error during authentication.")
          | NotFound => Reply (failure 401 "Token is invalid. User not found.")
          | Found user => Next user
          end
      end.
Proof.
  intros Hh. unfold auth. rewrite Hh.
  by rewrite bearer_truthy, bearer_startsWith, bearer_replace.
Qed.

(** Whatever the gate answers by itself is a 401, or the 500 of its
    catch. *)
Lemma auth_Reply req d r :
  auth req d = Reply r -> status r = 401%nat \/ status r = 500%nat.
Proof.
  unfold auth. repeat case_match; intros [= <-]; try (by left); try (by right).
  left. unfold auth_catch. by case_match.
Qed.

(** Whoever the gate lets through was looked up in the store under the
    identifier of a verified token, and comes without the password. *)
Lemma auth_Next req d user :
  auth req d = Next user ->
  exists token decoded stored,
    jwt_verify token = inr decoded
    /\ findByPk (Users d) (member decoded "id") = Found stored
    /\ user = delete "password" stored.
Proof.
  unfold auth, User_findByPk_public. repeat case_match; intros [= <-]; try done.
  match goal with
  | Hv : jwt_verify ?t = inr ?p, Hf : findByPk _ _ = Found ?s |- _ =>
      exists t, p, s; repeat split; [exact Hv | exact Hf | congruence]
  end.
Qed.

(** The gate of lines 567-655 does what section 4.2 asks of it.  On a
    header [Bearer <token>] whose token verifies with a number for its
    identifier, it looks the User up under that number: without such a
    User it answers 401, with one it calls the handler with that User,
    password column removed.  Without a header, with a header that is not
    a Bearer one, and with a token that verification refuses (malformed,
    expired, not yet valid), it answers 401.  Whenever the gate answers
    by itself the handler is not run and the store stays as it was. *)
Lemma lookup_gate_contract (req : request) (d : db) :
  (forall raw decoded n,
      header_Authorization req = Some ("Bearer " +:+ raw) ->
      trim raw ≠ "" ->
      jwt_verify (trim raw) = inr decoded ->
      member decoded "id" = JNum n ->
      match List.find (fun r => pk_of r =? n) (Users d) with
      | None => auth req d = Reply (failure 401 "Token is invalid. User not found.")
      | Some stored =>
          auth req d = Next (delete "password" stored)
          /\ (delete "password" stored : row) !! "password" = None
          /\ forall handler,
               protected handler req d = handler (delete "password" stored) req d
      end)
  /\ (header_Authorization req = None ->
      auth req d = Reply (failure 401 "Access denied. No authorization token provided."))
  /\ (forall h, header_Authorization req = Some h -> startsWith h "Bearer " = false ->
      exists r, auth req d = Reply r /\ status r = 401%nat)
  /\ (forall raw e,
      header_Authorization req = Some ("Bearer " +:+ raw) ->
      jwt_verify (trim raw) = inl e ->
      exists r, auth req d = Reply r /\ status r = 401%nat)
  /\ (forall r, auth req d = Reply r -> forall handler, protected handler req d = (r, d)).
Proof.
  split; [|split; [|split; [|split]]].
  - intros raw decoded n Hh Hne Hv Hid.
    unfold protected. rewrite (auth_bearer _ _ _ Hh), Hv.
    apply truthy_JStr in Hne. rewrite Hne. simpl negb. cbv iota.
    unfold User_findByPk_public, findByPk. rewrite Hid.
    change (key_matches (JNum n)) with (fun r => pk_of r =? n).
    destruct (List.find _ (Users d)) as [stored|]; [|done].
    split; [done|]. split; [apply lookup_delete_eq | done].
  - intros Hh. unfold auth. by rewrite Hh.
  - intros h Hh Hs. unfold auth. rewrite Hh, Hs.
    destruct (negb (truthy (JStr h))); eauto.
  - intros raw e Hh Hv. rewrite (auth_bearer _ _ _ Hh), Hv.
    destruct (negb _); [eauto|].
    eexists. split; [done|]. by destruct e.
  - intros r Hr handler. unfold protected. by rewrite Hr.
Qed.

(** C2.  The middleware that the first copy of the auth routes exports
    (lines 413-425) makes no lookup.  Whatever the store holds, a token
    that verifies lets the request through with the decoded payload as
    [req.user], and a route behind this middleware runs its handler on
    the properties of that payload. *)
Theorem exported_auth_skips_the_lookup
    (req : request) (d : db) (token : string) (decoded : jsval) :
  AuthRoutes.header_token req = JStr token ->
  token ≠ "" ->
  jwt_verify token = inr decoded ->
  AuthRoutes.auth req = AuthRoutes.NextPayload decoded
  /\ forall handler,
       AuthRoutes.protected_by_payload handler req d
       = handler (AuthRoutes.payload_properties decoded) req d.
Proof.
  intros Ht Hne Hv.
  assert (E : AuthRoutes.auth req = AuthRoutes.NextPayload decoded).
  { unfold AuthRoutes.auth. rewrite Ht. apply truthy_JStr in Hne. by rewrite Hne, Hv. }
  split; [exact E|]. intros handler. unfold AuthRoutes.protected_by_payload. by rewrite E.
Qed.

End Gate.

(** C2 at work.  The token [t4] verifies and names user 4; the store has
    no such user.  The exported middleware lets the request through with
    the payload, and the claim handler behind it is run (it answers 403,
    the payload having no user type); the gate with the lookup answers
    the same request 401. *)
Lemma exported_auth_skips_the_lookup_witness :
  let req := Demo.bearer "t4" ∅ (JStr "1") in
  findByPk (Users Demo.store) (JNum 4) = NotFound
  /\ AuthRoutes.auth (H := Demo.library) req = AuthRoutes.NextPayload (obj [("id", JNum 4)])
  /\ AuthRoutes.protected_by_payload (H := Demo.library)
       (patch_claim_handler (H := Demo.library)) req Demo.store
     = (failure 403 "Only receivers can claim listings", Demo.store)
  /\ auth (H := Demo.library) req Demo.store
     = Reply (failure 401 "Token is invalid. User not found.").
Proof.
  intros req.
  destruct (exported_auth_skips_the_lookup (H := Demo.library) req Demo.store "t4"
              (obj [("id", JNum 4)]) eq_refl ltac:(discriminate) eq_refl) as [Hpass Hrun].
  split; [reflexivity|]. split; [exact Hpass|]. split; [|reflexivity].
  rewrite Hrun. reflexivity.
Defined.

(** The gate with the lookup on the demo store. *)
Lemma lookup_gate_on_demo :
  auth (H := Demo.library) (Demo.bearer "t1" ∅ JUndefined) Demo.store
    = Next (delete "password" Demo.thandi)
  /\ auth (H := Demo.library) (Demo.bearer "t4" ∅ JUndefined) Demo.store
    = Reply (failure 401 "Token is invalid. User not found.")
  /\ (exists r, auth (H := Demo.library) (Demo.bearer "expired" ∅ JUndefined) Demo.store
                = Reply r /\ status r = 401%nat).
Proof.
  destruct (lookup_gate_contract (H := Demo.library) (Demo.bearer "t1" ∅ JUndefined) Demo.store)
    as (Hok & _).
  destruct (lookup_gate_contract (H := Demo.library) (Demo.bearer "t4" ∅ JUndefined) Demo.store)
    as (Hgone & _).
  destruct (lookup_gate_contract (H := Demo.library) (Demo.bearer "expired" ∅ JUndefined)
              Demo.store) as (_ & _ & _ & Hbad & _).
  split; [|split].
  - exact (proj1 (Hok "t1" (obj [("id", JNum 1)]) 1 eq_refl ltac:(discriminate) eq_refl
                      eq_refl)).
  - exact (Hgone "t4" (obj [("id", JNum 4)]) 4 eq_refl ltac:(discriminate) eq_refl eq_refl).
  - exact (Hbad "expired" TokenExpiredError eq_refl eq_refl).
Qed.

(* ===================================================================== *)
(** ** What a user view shows *)
(* ===================================================================== *)

Section UserViews.
Context `{Library}.

(** A property of a serialised object is the serialised property, unless
    that is [undefined], in which case it is not there. *)
Lemma stringify_obj_lookup (o : row) :
  exists o' : row,
    stringify (JObj o) = JObj o'
    /\ forall k, o' !! k =
         match o !! k with
         | Some v => if is_undefined (stringify v) then None else Some (stringify v)
         | None => None
         end.
Proof.
  exists (filter (fun kv : string * jsval => is_undefined kv.2 = false) (stringify <$> o)).
  split; [reflexivity|]. intros k.
  rewrite map_lookup_filter, lookup_fmap.
  destruct (o !! k) as [v|]; [|done].
  cbn [fmap option_fmap option_map mbind option_bind].
  destruct (is_undefined (stringify v)) eqn:E;
    case_guard as Hg; cbn [snd] in Hg; try done; congruence.
Qed.

Lemma member_stringify_obj (o : row) k v :
  o !! k = Some v -> member (stringify (JObj o)) k = stringify v.
Proof.
  intros Hk. destruct (stringify_obj_lookup o) as (o' & -> & Ho').
  unfold member, get. rewrite Ho', Hk.
  by destruct (stringify v).
Qed.

(** [delete userResponse.password] *)
Lemma omits_password_delete (user : row) :
  omits_password (stringify (JObj (delete "password" user))).
Proof.
  destruct (stringify_obj_lookup (delete "password" user)) as (o' & -> & Ho').
  exists o'. split; [done|]. by rewrite Ho', lookup_delete_eq.
Qed.

(** [{ ...user.toJSON(), password: undefined }] *)
Lemma omits_password_undefined (user : row) :
  omits_password (stringify (JObj (<["password" := JUndefined]> user))).
Proof.
  destruct (stringify_obj_lookup (<["password" := JUndefined]> user)) as (o' & -> & Ho').
  exists o'. split; [done|]. by rewrite Ho', lookup_insert_eq.
Qed.

Lemma message_not_success code msg :
  code ≠ 200%nat -> code ≠ 201%nat -> ~ success (message code msg).
Proof. intros ? ? [?|?]; done. Qed.

Lemma protected_success handler req d :
  success (protected handler req d).1 ->
  exists user, auth req d = Next user /\ protected handler req d = handler user req d.
Proof.
  destruct (protected_cases handler req d) as [(r & Hr & ->)|(u & Hu & ->)]; [|eauto].
  intros [E|E]; simpl in E; apply auth_Reply in Hr as [Hr|Hr]; congruence.
Qed.

Ltac not_a_success :=
  match goal with
  | Hs : success (message _ _, _).1 |- _ =>
      exfalso; revert Hs; simpl; by apply message_not_success
  end.

Lemma register_view req d :
  success (AuthRoutes.register req d).1 ->
  omits_password (member (body (AuthRoutes.register req d).1) "user").
Proof.
  unfold AuthRoutes.register. intros Hs. repeat case_match; try not_a_success.
  cbn [fst]. unfold res_json, obj. cbn [body].
  erewrite member_stringify_obj by reflexivity.
  apply omits_password_delete.
Qed.

Lemma login_view req d :
  success (AuthRoutes.login req d).1 ->
  omits_password (member (body (AuthRoutes.login req d).1) "user").
Proof.
  unfold AuthRoutes.login. intros Hs. repeat case_match; try not_a_success.
  cbn [fst]. unfold res_json, obj. cbn [body].
  erewrite member_stringify_obj by reflexivity.
  apply omits_password_delete.
Qed.

Lemma token_user_not_success internal req d r :
  AuthRoutes.token_user internal req d = inl r -> ~ success r.
Proof.
  unfold AuthRoutes.token_user.
  repeat case_match; intros [= <-]; by apply message_not_success.
Qed.

Lemma verify_view req d :
  success (AuthRoutes.verify req d).1 ->
  omits_password (member (body (AuthRoutes.verify req d).1) "user").
Proof.
  unfold AuthRoutes.verify.
  destruct (AuthRoutes.token_user _ req d) as [r|user] eqn:E; cbn [fst].
  - intros Hs. by apply token_user_not_success in E.
  - intros _. cbn [fst]. unfold res_json, obj. cbn [body].
    erewrite member_stringify_obj by reflexivity.
    apply omits_password_delete.
Qed.

Lemma me_view req d :
  success (AuthRoutes.me req d).1 -> omits_password (body (AuthRoutes.me req d).1).
Proof.
  unfold AuthRoutes.me.
  destruct (AuthRoutes.token_user _ req d) as [r|user] eqn:E; cbn [fst].
  - intros Hs. by apply token_user_not_success in E.
  - intros _. apply omits_password_delete.
Qed.

Lemma bcrypt_register_view salt req d :
  success (AuthRoutesBcrypt.register salt req d).1 ->
  omits_password (member (body (AuthRoutesBcrypt.register salt req d).1) "user").
Proof.
  unfold AuthRoutesBcrypt.register. intros Hs. repeat case_match; try not_a_success.
  cbn [fst]. unfold res_json, obj. cbn [body].
  erewrite member_stringify_obj by reflexivity.
  apply omits_password_undefined.
Qed.

Lemma bcrypt_login_view req d :
  success (AuthRoutesBcrypt.login req d).1 ->
  omits_password (member (body (AuthRoutesBcrypt.login req d).1) "user").
Proof.
  unfold AuthRoutesBcrypt.login. intros Hs. repeat case_match; try not_a_success.
  cbn [fst]. unfold res_json, obj. cbn [body].
  erewrite member_stringify_obj by reflexivity.
  apply omits_password_undefined.
Qed.

Lemma get_profile_view req d :
  success (get_profile req d).1 -> omits_password (body (get_profile req d).1).
Proof.
  unfold get_profile. intros (user & _ & ->)%protected_success.
  apply omits_password_delete.
Qed.

Lemma put_profile_view req d :
  success (put_profile req d).1 -> omits_password (body (put_profile req d).1).
Proof.
  unfold put_profile. intros Hs.
  destruct (protected_success _ _ _ Hs) as (user & _ & E). rewrite E in Hs |- *.
  revert Hs. unfold put_profile_handler.
  destruct (User_update _ _ _ _) as [msg|[updatedUser t]]; intros Hs.
  - exfalso. revert Hs. by apply message_not_success.
  - apply omits_password_delete.
Qed.

(** C5.  Every route that answers with a user view (registration and
    login in both copies, token verification, current user, profile read
    and profile update) answers, when it succeeds, with a user object that
    has no password property: under [user] for the first five, as the
    body itself for the last three. *)
Theorem user_views_omit_password (salt : string) (req : request) (d : db) :
  (forall out,
      out ∈ [AuthRoutes.register req d; AuthRoutes.login req d; AuthRoutes.verify req d;
             AuthRoutesBcrypt.register salt req d; AuthRoutesBcrypt.login req d] ->
      success out.1 -> omits_password (member (body out.1) "user"))
  /\ (forall out,
      out ∈ [AuthRoutes.me req d; get_profile req d; put_profile req d] ->
      success out.1 -> omits_password (body out.1)).
Proof.
  split; intros out Hin Hs;
    repeat (apply elem_of_cons in Hin as [-> | Hin]);
    try (by apply elem_of_nil in Hin);
    eauto using register_view, login_view, verify_view, me_view, bcrypt_register_view,
      bcrypt_login_view, get_profile_view, put_profile_view.
Qed.

End UserViews.

Lemma user_views_omit_password_witness :
  let signup := Demo.anonymous (Demo.signup "Dudu" "dudu@ngo.example" "pw" "receiver") in
  let read := Demo.bearer "t1" ∅ JUndefined in
  omits_password
    (member (body (AuthRoutesBcrypt.register (H := Demo.library) "s" signup Demo.store).1)
            "user")
  /\ omits_password (body (get_profile (H := Demo.library) read Demo.store).1).
Proof.
  intros signup read.
  destruct (user_views_omit_password (H := Demo.library) "s" signup Demo.store) as [Hn _].
  destruct (user_views_omit_password (H := Demo.library) "s" read Demo.store) as [_ Hf].
  split.
  - apply Hn; [|right; reflexivity].
    do 3 apply list_elem_of_further. apply list_elem_of_here.
  - apply Hf; [|left; reflexivity].
    apply list_elem_of_further, list_elem_of_here.
Defined.

(* ===================================================================== *)
(** ** Registration *)
(* ===================================================================== *)

Section Registration.
Context `{Library}.

Lemma findOne_app_new t col v inst :
  findOne t col v = None -> where_eq (get inst col) v = true ->
  findOne (t ++ [inst]) col v = Some inst.
Proof.
  unfold findOne. intros Hnone Hinst.
  induction t as [|x t IH]; simpl in *.
  - by rewrite Hinst.
  - destruct (where_eq (get x col) v); [discriminate | auto].
Qed.

Lemma where_eq_refl_str e : where_eq (JStr e) (JStr e) = true.
Proof. simpl. by apply bool_decide_eq_true. Qed.

Lemma includes_roles v :
  v = JStr "donor" \/ v = JStr "receiver" -> includes ["donor"; "receiver"] v = true.
Proof. by intros [-> | ->]. Qed.

(** What the model answers, when it answers. *)
Lemma User_create_Some now vals t user t' :
  User_create now vals t = Some (user, t') ->
  user = new_instance now vals t /\ t' = t ++ [null_undefined user].
Proof.
  unfold User_create. case_match; [|discriminate]. by intros [= <- <-].
Qed.

(** The model accepts a row with a fresh email and a proper role. *)
Lemma User_create_fresh now vals t e :
  get vals "email" = JStr e ->
  get vals "userType" = JStr "donor" \/ get vals "userType" = JStr "receiver" ->
  findOne t "email" (JStr e) = None ->
  User_create now vals t
  = Some (new_instance now vals t, t ++ [null_undefined (new_instance now vals t)]).
Proof.
  intros He Hrole Hfresh. unfold User_create.
  by rewrite He, Hfresh, (includes_roles _ Hrole).
Qed.

(** A column of the row that is stored for a new user. *)
Lemma stored_user_get now vals t k v :
  k ∉ ["id"; "createdAt"; "updatedAt"] ->
  get vals k = v -> v ≠ JUndefined ->
  get (null_undefined (new_instance now vals t)) k = v.
Proof.
  intros Hk Hv Hdef. apply get_null_undefined; [|done].
  unfold new_instance.
  rewrite !get_insert_ne; [done|..]; intros <-; apply Hk; repeat constructor.
Qed.

(** The checks on the body, as both handlers write them. *)
Lemma signup_passes b e :
  well_formed_signup b e ->
  negb (truthy (get b "name")) || negb (truthy (get b "email"))
  || negb (truthy (get b "password")) || negb (truthy (get b "userType")) = false.
Proof.
  intros [Hn He Hne (pw & Hp & Hpne) Hr].
  rewrite Hn, He, Hp.
  apply truthy_JStr in Hne, Hpne. rewrite Hne, Hpne.
  by destruct Hr as [-> | ->].
Qed.

Lemma register_first b e d req :
  req_body req = b -> well_formed_signup b e ->
  findOne (Users d) "email" (JStr e) = None ->
  exists r u,
    AuthRoutes.register req d = (r, mkDb (Users d ++ [u]) (Listings d))
    /\ status r = 201%nat /\ get u "email" = JStr e.
Proof.
  intros Hb Hwf Hfresh. unfold AuthRoutes.register. rewrite Hb.
  rewrite (signup_passes _ _ Hwf).
  destruct Hwf as [Hn He Hne Hp Hr].
  rewrite (includes_roles _ Hr), He, Hfresh. simpl negb. cbv iota.
  erewrite User_create_fresh; [| by rewrite <- He | done | done].
  eexists _, _. split; [reflexivity|]. split; [done|].
  apply stored_user_get; [|done..].
  intros Hin. repeat (apply elem_of_cons in Hin as [? | Hin]); try done.
  by apply elem_of_nil in Hin.
Qed.

Lemma register_first_bcrypt salt b e d req :
  req_body req = b -> well_formed_signup b e ->
  findOne (Users d) "email" (JStr e) = None ->
  exists r u,
    AuthRoutesBcrypt.register salt req d = (r, mkDb (Users d ++ [u]) (Listings d))
    /\ status r = 201%nat /\ get u "email" = JStr e.
Proof.
  intros Hb Hwf Hfresh. unfold AuthRoutesBcrypt.register. rewrite Hb.
  rewrite (signup_passes _ _ Hwf).
  destruct Hwf as [Hn He Hne (pw & Hp & Hpne) Hr].
  rewrite He, Hfresh, Hp. cbv iota.
  erewrite User_create_fresh; [| by rewrite <- He | done | done].
  eexists _, _. split; [reflexivity|]. split; [done|].
  apply stored_user_get; [|done..].
  intros Hin. repeat (apply elem_of_cons in Hin as [? | Hin]); try done.
  by apply elem_of_nil in Hin.
Qed.

(** C6.  Two well-formed registration requests with the same email, the
    first on a store that has no user with it.  In either copy of the
    route the first is answered 201 and adds exactly one User, with that
    email; the second is answered with "user already exists" (400 in the
    first copy, 409 in the second) and leaves the store as the first
    left it, so no second User is created. *)
Theorem second_registration_conflicts
    (salt1 salt2 e : string) (req1 req2 : request) (d : db) :
  well_formed_signup (req_body req1) e ->
  well_formed_signup (req_body req2) e ->
  findOne (Users d) "email" (JStr e) = None ->
  (let out1 := AuthRoutes.register req1 d in
   status out1.1 = 201%nat
   /\ (exists u, out1.2 = mkDb (Users d ++ [u]) (Listings d) /\ get u "email" = JStr e)
   /\ AuthRoutes.register req2 out1.2
      = (message 400 "User already exists with this email", out1.2))
  /\ (let out1 := AuthRoutesBcrypt.register salt1 req1 d in
      status out1.1 = 201%nat
      /\ (exists u, out1.2 = mkDb (Users d ++ [u]) (Listings d) /\ get u "email" = JStr e)
      /\ AuthRoutesBcrypt.register salt2 req2 out1.2
         = (message 409 "User already exists", out1.2)).
Proof.
  intros Hwf1 Hwf2 Hfresh. split.
  - destruct (register_first _ e d req1 eq_refl Hwf1 Hfresh) as (r & u & -> & Hr & Hu).
    cbn [fst snd]. split; [done|]. split; [eauto|].
    unfold AuthRoutes.register. rewrite (signup_passes _ _ Hwf2).
    destruct Hwf2 as [_ He _ _ Hrole]. rewrite (includes_roles _ Hrole), He.
    cbn [Users]. rewrite (findOne_app_new _ _ _ u Hfresh); [done|].
    rewrite Hu. apply where_eq_refl_str.
  - destruct (register_first_bcrypt salt1 _ e d req1 eq_refl Hwf1 Hfresh)
      as (r & u & -> & Hr & Hu).
    cbn [fst snd]. split; [done|]. split; [eauto|].
    unfold AuthRoutesBcrypt.register. rewrite (signup_passes _ _ Hwf2).
    destruct Hwf2 as [_ He _ _ _]. rewrite He.
    cbn [Users]. rewrite (findOne_app_new _ _ _ u Hfresh); [done|].
    rewrite Hu. apply where_eq_refl_str.
Qed.

End Registration.

Lemma second_registration_conflicts_witness :
  let first := Demo.anonymous (Demo.signup "Dudu" "dudu@ngo.example" "pw1" "receiver") in
  let again := Demo.anonymous (Demo.signup "Dee" "dudu@ngo.example" "pw2" "donor") in
  let out1 := AuthRoutesBcrypt.register (H := Demo.library) "s1" first Demo.store in
  status out1.1 = 201%nat
  /\ length (Users out1.2) = 4%nat
  /\ AuthRoutesBcrypt.register (H := Demo.library) "s2" again out1.2
     = (message 409 "User already exists", out1.2).
Proof.
  intros first again.
  assert (Hwf1 : well_formed_signup (req_body first) "dudu@ngo.example").
  { split; [reflexivity | reflexivity | discriminate | | right; reflexivity].
    exists "pw1". split; [reflexivity | discriminate]. }
  assert (Hwf2 : well_formed_signup (req_body again) "dudu@ngo.example").
  { split; [reflexivity | reflexivity | discriminate | | left; reflexivity].
    exists "pw2". split; [reflexivity | discriminate]. }
  destruct (second_registration_conflicts (H := Demo.library) "s1" "s2" "dudu@ngo.example"
              first again Demo.store Hwf1 Hwf2 eq_refl)
    as (_ & H201 & (u & Hu & _) & Hdup).
  split; [exact H201|]. split; [|exact Hdup].
  cbv zeta. rewrite Hu. cbn [Users]. rewrite length_app. reflexivity.
Defined.

(* ===================================================================== *)
(** ** The password at rest *)
(* ===================================================================== *)

Section Passwords.
Context `{Library}.






(** The columns the profile route has written: some of the four, and
    [updatedAt]. *)
Lemma profile_written_columns user b k :
  k ∈ given User_columns (omit_undefined (profile_update user b)) ++ ["updatedAt"] ->
  k ∈ profile_columns \/ k = "updatedAt".
Proof.
  intros [Hk|Hk]%elem_of_app.
  - left. by apply profile_fields in Hk as [Hk _].
  - right. by apply list_elem_of_singleton in Hk.
Qed.






End Passwords.




(* ===================================================================== *)
(** ** The profile update *)
(* ===================================================================== *)

Section ProfileUpdate.
Context `{Library}.











End ProfileUpdate.




(* ===================================================================== *)
(** ** The search route *)
(* ===================================================================== *)

Section Search.

(** [models] has no property [Sequelize]: reading [Op] off it throws. *)
Lemma models_has_no_Sequelize : models_Sequelize_Op_iLike = None.
Proof. reflexivity. Qed.

(** With a query that is not empty the handler evaluates
    [models.Sequelize.Op.iLike], and the TypeError lands in its catch. *)
Lemma get_search_with_query req d qs :
  query_q req = Some qs -> qs ≠ "" ->
  get_search req d = (failure 500 "Error searching listings", d).
Proof.
  intros Hq Hne. unfold get_search. rewrite Hq.
  apply truthy_JStr in Hne. by rewrite Hne, models_has_no_Sequelize.
Qed.

(** Without a query, or with the empty one, search is browse. *)
Lemma get_search_without_query req d :
  query_q req = None \/ query_q req = Some "" ->
  get_search req d = get_listings req d.
Proof. unfold get_search, get_listings. by intros [-> | ->]. Qed.

(** C7.  The listing of bread is available and its foodType contains the
    query [Bread], so the search as specified returns it (and returns it
    alone, the other listing being apples); the route answers the
    request [q=Bread] with 500 "Error searching listings" instead. *)
Theorem search_with_a_query_fails :
  let req := mkReq None ∅ JUndefined (Some "Bread") in
  (fun l => pk_of l) <$> search_as_specified (Some "Bread") Demo.store
    = [pk_of Demo.bread]
  /\ get_search req Demo.store = (failure 500 "Error searching listings", Demo.store)
  /\ status (get_search req Demo.store).1 = 500%nat.
Proof.
  cbv zeta. split; [vm_compute; reflexivity|].
  by rewrite (get_search_with_query _ _ "Bread").
Qed.

End Search.

(* ===================================================================== *)
(** ** More on the gate *)
(* ===================================================================== *)

Section MoreGate.
Context `{Library}.

(** X3.  Whom the gate with the lookup lets through.  Whenever it calls
    the handler, the token has verified, a User is stored under the
    token's identifier, and the handler gets that stored User with the
    password column taken out.  Whenever it answers by itself, the
    answer is a 401, or the 500 of its catch, the handler is not run and
    the store stays as it was. *)
Theorem gate_admits_only_stored_users (req : request) (d : db) :
  (forall user, auth req d = Next user ->
     exists token decoded stored,
       jwt_verify token = inr decoded
       /\ findByPk (Users d) (member decoded "id") = Found stored
       /\ In stored (Users d)
       /\ user = delete "password" stored
       /\ user !! "password" = None
       /\ forall handler, protected handler req d = handler user req d)
  /\ (forall r, auth req d = Reply r ->
       (status r = 401%nat \/ status r = 500%nat)
       /\ forall handler, protected handler req d = (r, d)).
Proof.
  split.
  - intros user Hauth.
    destruct (auth_Next _ _ _ Hauth) as (token & decoded & stored & Hv & Hf & ->).
    exists token, decoded, stored.
    split; [exact Hv|]. split; [exact Hf|].
    split; [exact (proj2 (findByPk_Found _ _ _ Hf))|].
    split; [reflexivity|]. split; [apply lookup_delete_eq|].
    intros handler. unfold protected. by rewrite Hauth.
  - intros r Hauth. split; [exact (auth_Reply _ _ _ Hauth)|].
    intros handler. unfold protected. by rewrite Hauth.
Qed.

End MoreGate.

Lemma gate_admits_only_stored_users_witness :
  exists stored,
    In stored (Users Demo.store)
    /\ auth (H := Demo.library) (Demo.bearer "t1" ∅ JUndefined) Demo.store
       = Next (delete "password" stored).
Proof.
  destruct (proj1 (gate_admits_only_stored_users (H := Demo.library)
                     (Demo.bearer "t1" ∅ JUndefined) Demo.store)
                  (delete "password" Demo.thandi) eq_refl)
    as (token & decoded & stored & _ & _ & Hin & Hu & _).
  exists stored. split; [exact Hin|].
  rewrite <- Hu. reflexivity.
Defined.

(* ===================================================================== *)
(** ** More on the listing routes *)
(* ===================================================================== *)

Section MoreListings.
Context `{Library}.

Lemma db_eta d : mkDb (Users d) (Listings d) = d.
Proof. by destruct d. Qed.

Lemma db_ext d d' : Users d' = Users d -> Listings d' = Listings d -> d' = d.
Proof. destruct d, d'. simpl. by intros -> ->. Qed.

(** The model checks the three columns of the body. *)
Lemma Listing_validate_fields user b :
  Listing_validate (Listing_with_status (attributes Listing_columns (listing_fields user b)))
  = Listing_validate b.
Proof.
  unfold Listing_validate. cbn [forallb].
  rewrite !new_listing_get by repeat constructor.
  rewrite !listing_fields_get by repeat constructor. reflexivity.
Qed.

(** A new listing has the attributes of the model and no other
    property. *)
Lemma new_listing_lookup now vals t k :
  k ∉ Listing_attributes ->
  new_instance now (Listing_with_status (attributes Listing_columns vals)) t !! k = None.
Proof.
  intros Hk. unfold new_instance.
  rewrite !lookup_insert_ne by (intros <-; apply Hk; unfold Listing_attributes; simpl;
                                repeat constructor).
  assert (Hcols : attributes Listing_columns vals !! k = None).
  { apply lookup_attributes_None. intros Hin. apply Hk.
    unfold Listing_attributes. apply list_elem_of_further, elem_of_app. by left. }
  unfold Listing_with_status.
  destruct (get (attributes Listing_columns vals) "status"); try exact Hcols.
  rewrite lookup_insert_ne; [exact Hcols|].
  intros <-. apply Hk. unfold Listing_attributes. simpl. repeat constructor.
Qed.

(** The create handler for a donor: either the model takes the body and
    one listing is added and returned, or the answer is 500. *)
Lemma post_listings_handler_cases (req : request) (d : db) (user : row) :
  get user "userType" = JStr "donor" ->
  let b := req_body req in
  let out := post_listings_handler user req d in
  if Listing_validate b then
    status out.1 = 201%nat
    /\ exists l,
         out.2 = mkDb (Users d) (Listings d ++ [l])
         /\ member (body out.1) "data" = stringify (JObj l)
         /\ get l "id" = JNum (next_pk (Listings d))
         /\ get l "status" = JStr "available"
         /\ (forall col, col ∈ ["foodType"; "quantity"; "location"] -> get l col = get b col)
         /\ get l "createdAt" = JStr (Date_now req)
         /\ get l "updatedAt" = JStr (Date_now req)
         /\ l !! "description" = None
         /\ l !! "userId" = None
  else out = (failure 500 "Error creating listing", d).
Proof.
  intros Hrole b out.
  unfold out, post_listings_handler.
  rewrite Hrole. simpl negb. cbv iota.
  unfold Listing_create. rewrite Listing_validate_fields. fold b.
  destruct (Listing_validate b); [|reflexivity].
  cbn [fst snd]. split; [reflexivity|].
  eexists. split; [reflexivity|].
  split. { unfold res_json, obj. cbn [body]. by erewrite member_stringify_obj by reflexivity. }
  unfold new_instance at 1 2 3 4 5.
  split; [by rewrite !get_insert_ne, get_insert_eq by done|].
  split.
  { rewrite !get_insert_ne by done. unfold Listing_with_status.
    rewrite get_attributes by (unfold Listing_columns; repeat constructor).
    rewrite listing_fields_no_status. apply get_insert_eq. }
  split.
  { intros col Hcol. rewrite !get_insert_ne.
    - rewrite new_listing_get by done. by apply listing_fields_get.
    - intros <-. repeat (apply elem_of_cons in Hcol as [? | Hcol]); try done.
      by apply elem_of_nil in Hcol.
    - intros <-. repeat (apply elem_of_cons in Hcol as [? | Hcol]); try done.
      by apply elem_of_nil in Hcol.
    - intros <-. repeat (apply elem_of_cons in Hcol as [? | Hcol]); try done.
      by apply elem_of_nil in Hcol. }
  split; [by rewrite get_insert_ne, get_insert_eq|].
  split; [by rewrite get_insert_eq|].
  split; apply new_listing_lookup; unfold Listing_attributes, Listing_columns; simpl;
    intros Hin; repeat (apply elem_of_cons in Hin as [? | Hin]); try done;
    by apply elem_of_nil in Hin.
Qed.

Lemma Listing_validate_strings (b : row) :
  (forall col, col ∈ ["foodType"; "quantity"; "location"] -> exists s, get b col = JStr s) ->
  Listing_validate b = true.
Proof.
  intros Hstr. unfold Listing_validate. cbn [forallb].
  destruct (Hstr "foodType") as [s1 ->]; [repeat constructor|].
  destruct (Hstr "quantity") as [s2 ->]; [repeat constructor|].
  destruct (Hstr "location") as [s3 ->]; [repeat constructor|].
  reflexivity.
Qed.

(** X1.  What the create handler does for a donor.  When foodType,
    quantity or location is missing, null, an array or an object, the
    answer is 500 and the store is as it was; every other body is
    answered 201 and adds one listing and no user.  When the three are
    strings, the new listing is the [data] of the answer and the last
    row of the Listings table: under the next key, with status
    available, the three values of the body and the time of the request
    as both timestamps.  The description of the body and the caller's
    key are not columns of the model, and are not part of the
    listing. *)
Theorem create_listing_outcome (req : request) (d : db) (user : row) :
  get user "userType" = JStr "donor" ->
  let b := req_body req in
  let out := post_listings_handler user req d in
  (Listing_validate b = false -> out = (failure 500 "Error creating listing", d))
  /\ (Listing_validate b = true ->
      status out.1 = 201%nat /\ Users out.2 = Users d
      /\ length (Listings out.2) = S (length (Listings d)))
  /\ ((forall col, col ∈ ["foodType"; "quantity"; "location"] ->
         exists s, get b col = JStr s) ->
      status out.1 = 201%nat
      /\ exists l,
           out.2 = mkDb (Users d) (Listings d ++ [l])
           /\ member (body out.1) "data" = stringify (JObj l)
           /\ get l "id" = JNum (next_pk (Listings d))
           /\ get l "status" = JStr "available"
           /\ (forall col, col ∈ ["foodType"; "quantity"; "location"] ->
                 get l col = get b col)
           /\ get l "createdAt" = JStr (Date_now req)
           /\ get l "updatedAt" = JStr (Date_now req)
           /\ l !! "description" = None
           /\ l !! "userId" = None).
Proof.
  intros Hrole b out.
  pose proof (post_listings_handler_cases req d user Hrole) as Hcases.
  cbv zeta in Hcases. fold b in Hcases. fold out in Hcases. clearbody out.
  split; [|split].
  - intros Hv. by rewrite Hv in Hcases.
  - intros Hv. rewrite Hv in Hcases. destruct Hcases as (H201 & l & -> & _).
    split; [exact H201|]. split; [reflexivity|].
    cbn [Listings]. rewrite length_app. simpl. lia.
  - intros Hstr. by rewrite (Listing_validate_strings b Hstr) in Hcases.
Qed.

(** X2.  The claim handler answers a receiver's claim on a listing that
    is not there with 404 and leaves the store as it was; so it does
    when the [:id] of the path is a text that is no number. *)
Theorem claim_of_unknown_listing (req : request) (d : db) (user : row) :
  get user "userType" = JStr "receiver" ->
  (findByPk (Listings d) (params_id req) = NotFound ->
     patch_claim_handler user req d = (failure 404 "Listing not found", d))
  /\ (forall s, params_id req = JStr s -> numeric_text s = None ->
     patch_claim_handler user req d = (failure 404 "Listing not found", d)).
Proof.
  intros Hrole.
  assert (H404 : findByPk (Listings d) (params_id req) = NotFound ->
            patch_claim_handler user req d = (failure 404 "Listing not found", d)).
  { intros Hf. unfold patch_claim_handler.
    by rewrite Hrole, Hf. }
  split; [exact H404|].
  intros s Hs Hnum. apply H404. rewrite Hs. unfold findByPk.
  assert (Hnone : List.find (key_matches (JStr s)) (Listings d) = None).
  { generalize (Listings d). intros t. induction t as [|x t IH]; [reflexivity|].
    cbn [List.find key_matches]. unfold text_equals_key. rewrite Hnum. exact IH. }
  by rewrite Hnone.
Qed.

(** X13.  Claiming again.  The claim handler answers a receiver's claim
    on a listing that is claimed already with 200 and the listing as it
    is stored, and nothing is written: the store is as it was,
    [updatedAt] included. *)
Theorem repeated_claim_changes_nothing (req : request) (d : db) (user l : row) :
  get user "userType" = JStr "receiver" ->
  findByPk (Listings d) (params_id req) = Found l ->
  l !! "status" = Some (JStr "claimed") ->
  patch_claim_handler user req d
  = (res_json 200 (obj [("success", JBool true); ("data", JObj l)]), d).
Proof.
  intros Hrole Hfind Hst.
  unfold patch_claim_handler.
  rewrite Hrole, Hfind. simpl negb. cbv iota.
  rewrite claim_save.
  assert (E : str_is (get l "status") "claimed" = true).
  { apply str_is_true. unfold get. by rewrite Hst. }
  rewrite E. cbn [dataValues]. by rewrite insert_id, db_eta.
Qed.

End MoreListings.

Lemma create_listing_outcome_witness :
  let req := Demo.bearer "t1" Demo.bread_offer JUndefined in
  let out := post_listings_handler (H := Demo.library) Demo.thandi req Demo.store in
  status out.1 = 201%nat
  /\ exists l,
       out.2 = mkDb (Users Demo.store) (Listings Demo.store ++ [l])
       /\ get l "id" = JNum 3
       /\ get l "status" = JStr "available"
       /\ l !! "userId" = None.
Proof.
  intros req out.
  destruct (create_listing_outcome (H := Demo.library) req Demo.store
              Demo.thandi eq_refl) as (_ & _ & Hout).
  assert (Hstr : forall col, col ∈ ["foodType"; "quantity"; "location"] ->
            exists s, get (req_body req) col = JStr s).
  { intros col Hcol.
    repeat (apply elem_of_cons in Hcol as [-> | Hcol]);
      [by eexists.. | by apply elem_of_nil in Hcol]. }
  destruct (Hout Hstr) as (H201 & l & Hd & _ & Hid & Hst & _ & _ & _ & _ & Hno).
  split; [exact H201|]. exists l.
  split; [exact Hd|]. split; [exact Hid|]. split; [exact Hst | exact Hno].
Defined.

Lemma claim_of_unknown_listing_witness :
  patch_claim_handler (H := Demo.library) Demo.bongani
      (Demo.bearer "t2" ∅ (JStr "7")) Demo.store
    = (failure 404 "Listing not found", Demo.store)
  /\ patch_claim_handler (H := Demo.library) Demo.bongani
      (Demo.bearer "t2" ∅ (JStr "bread")) Demo.store
    = (failure 404 "Listing not found", Demo.store).
Proof.
  split.
  - exact (proj1 (claim_of_unknown_listing (H := Demo.library)
                    (Demo.bearer "t2" ∅ (JStr "7")) Demo.store
                    Demo.bongani eq_refl) eq_refl).
  - exact (proj2 (claim_of_unknown_listing (H := Demo.library)
                    (Demo.bearer "t2" ∅ (JStr "bread")) Demo.store
                    Demo.bongani eq_refl)
                 "bread" eq_refl eq_refl).
Defined.

Lemma repeated_claim_changes_nothing_witness :
  let out := patch_claim_handler (H := Demo.library) Demo.carol
               (Demo.bearer "t3" ∅ (JStr "1")) Demo.store_claimed in
  status out.1 = 200%nat /\ out.2 = Demo.store_claimed.
Proof.
  intros out.
  pose proof (repeated_claim_changes_nothing (H := Demo.library)
                (Demo.bearer "t3" ∅ (JStr "1")) Demo.store_claimed
                Demo.carol Demo.bread_claimed eq_refl eq_refl eq_refl) as Hout.
  unfold out. rewrite Hout. split; reflexivity.
Defined.

(* ===================================================================== *)
(** ** More on registration, login and tokens *)
(* ===================================================================== *)

Section MoreAccounts.
Context `{Library}.

(** X5.  A registration body in which name, email, password or userType
    is missing or falsy (empty string, null, 0, false) is answered 400 by
    both copies of the route, and the store stays as it was. *)
Theorem registration_needs_four_fields
    (salt : string) (req : request) (d : db) (k : string) :
  k ∈ signup_required ->
  truthy (get (req_body req) k) = false ->
  AuthRoutes.register req d
  = (message 400 "Name, email, password, and userType are required", d)
  /\ AuthRoutesBcrypt.register salt req d = (message 400 "Missing required fields", d).
Proof.
  intros Hk Hfalsy. unfold AuthRoutes.register, AuthRoutesBcrypt.register.
  assert (Hchecks :
    negb (truthy (get (req_body req) "name")) || negb (truthy (get (req_body req) "email"))
    || negb (truthy (get (req_body req) "password"))
    || negb (truthy (get (req_body req) "userType")) = true).
  { unfold signup_required in Hk.
    repeat (apply elem_of_cons in Hk as [-> | Hk]);
      try (rewrite Hfalsy; simpl; by rewrite ?orb_true_r).
    by apply elem_of_nil in Hk. }
  by rewrite Hchecks.
Qed.

(** X6.  The first copy of the register route answers 400 to a body
    whose four fields are there but whose userType is neither donor nor
    receiver, whatever else the body holds and whether or not the email
    is taken; the store stays as it was. *)
Theorem registration_needs_a_known_role (req : request) (d : db) :
  (forall k, k ∈ signup_required -> truthy (get (req_body req) k) = true) ->
  get (req_body req) "userType" ≠ JStr "donor" ->
  get (req_body req) "userType" ≠ JStr "receiver" ->
  exists r, AuthRoutes.register req d = (r, d) /\ status r = 400%nat.
Proof.
  intros Hall Hd Hr. unfold AuthRoutes.register.
  rewrite !Hall by (unfold signup_required; repeat constructor).
  cbn [negb orb]. cbv iota.
  assert (Hinc : includes ["donor"; "receiver"] (get (req_body req) "userType") = false).
  { unfold includes. simpl.
    destruct (str_is _ "donor") eqn:E1; [by apply str_is_true in E1|].
    destruct (str_is _ "receiver") eqn:E2; [by apply str_is_true in E2|]. done. }
  rewrite Hinc. cbn [negb]. cbv iota. eauto.
Qed.

(** X7.  A login that fails for its credentials looks the same whether
    the email is unknown or the password is wrong: the first copy answers
    both with the same 400 "Invalid email or password", the second copy
    both with the same 401 "Invalid credentials", and neither touches the
    store. *)
Theorem login_failures_look_alike (req1 req2 : request) (d : db) (u : row) :
  credentials_given (req_body req1) ->
  credentials_given (req_body req2) ->
  findOne (Users d) "email" (get (req_body req1) "email") = None ->
  findOne (Users d) "email" (get (req_body req2) "email") = Some u ->
  (checkPassword u (get (req_body req2) "password") = false ->
     AuthRoutes.login req1 d = (message 400 "Invalid email or password", d)
     /\ AuthRoutes.login req2 d = (message 400 "Invalid email or password", d))
  /\ (forall p h,
        get (req_body req2) "password" = JStr p -> get u "password" = JStr h ->
        bcrypt_compare p h = false ->
        AuthRoutesBcrypt.login req1 d = (message 401 "Invalid credentials", d)
        /\ AuthRoutesBcrypt.login req2 d = (message 401 "Invalid credentials", d)).
Proof.
  intros [He1 Hp1] [He2 Hp2] Hnone Hsome. split.
  - intros Hcheck. unfold AuthRoutes.login.
    by rewrite He1, Hp1, He2, Hp2, Hnone, Hsome, Hcheck.
  - intros p h Hp Hh Hcmp. unfold AuthRoutesBcrypt.login.
    rewrite He1, Hp1, He2, Hp2, Hnone, Hsome, Hp, Hh, Hcmp. done.
Qed.

Lemma token_user_agree i1 i2 req d :
  match AuthRoutes.token_user i1 req d, AuthRoutes.token_user i2 req d with
  | inr u1, inr u2 => u1 = u2
  | inl r1, inl r2 => status r1 = status r2
  | _, _ => False
  end.
Proof.
  unfold AuthRoutes.token_user. repeat case_match; simplify_eq; done.
Qed.

(** X8.  The verify route and the current-user route accept the same
    requests: their answers have the same status, on 200 the [user] of
    the one is the body of the other, and neither changes the store. *)
Theorem verify_and_me_agree (req : request) (d : db) :
  status (AuthRoutes.verify req d).1 = status (AuthRoutes.me req d).1
  /\ (status (AuthRoutes.me req d).1 = 200%nat ->
      member (body (AuthRoutes.verify req d).1) "user" = body (AuthRoutes.me req d).1)
  /\ (AuthRoutes.verify req d).2 = d /\ (AuthRoutes.me req d).2 = d.
Proof.
  pose proof (token_user_agree "Internal server error during token verification"
                "Internal server error" req d) as Hagree.
  pose proof (token_user_not_success "Internal server error" req d) as Hfail.
  unfold AuthRoutes.verify, AuthRoutes.me.
  destruct (AuthRoutes.token_user "Internal server error during token verification" req d)
    as [r1|u1];
    destruct (AuthRoutes.token_user "Internal server error" req d) as [r2|u2];
    try done; cbn [fst snd].
  - split; [done|]. split; [|done]. intros H200. exfalso.
    apply (Hfail r2 eq_refl). by left.
  - subst u2. split; [done|]. split; [|done]. intros _.
    unfold res_json, obj. cbn [body]. by erewrite member_stringify_obj by reflexivity.
Qed.

(** X9.  A token that is not valid yet.  The gate with the lookup answers
    it with 401, the verify and current-user routes with 500: their
    catch knows the expired and the malformed token only. *)
Theorem token_not_yet_valid (req : request) (d : db) (token : string) :
  header_Authorization req = Some ("Bearer " +:+ token) ->
  trim token = token -> token ≠ "" ->
  jwt_verify token = inl NotBeforeError ->
  auth req d = Reply (failure 401 "Token not active yet.")
  /\ status (AuthRoutes.verify req d).1 = 500%nat
  /\ status (AuthRoutes.me req d).1 = 500%nat.
Proof.
  intros Hh Htrim Hne Hv.
  apply truthy_JStr in Hne as Htruthy. split.
  - by rewrite (auth_bearer _ _ _ Hh), Htrim, Htruthy, Hv.
  - unfold AuthRoutes.verify, AuthRoutes.me, AuthRoutes.token_user, AuthRoutes.header_token.
    by rewrite Hh, bearer_replace, Htruthy, Hv.
Qed.

(** X4.  The middleware the first copy exports, on the headers it sees.
    Whatever it answers by itself is a 401.  It takes the token to be the
    header with the first "Bearer " cut out, so a header that is the bare
    token passes when the token verifies, where the gate with the lookup
    answers 401 for the missing prefix. *)
Theorem exported_auth_on_headers (req : request) (d : db) :
  (forall r, AuthRoutes.auth req = AuthRoutes.ReplyPayload r -> status r = 401%nat)
  /\ (header_Authorization req = None ->
      AuthRoutes.auth req = AuthRoutes.ReplyPayload (message 401 "No token provided"))
  /\ (forall token decoded,
        header_Authorization req = Some token ->
        replace_first "Bearer " "" token = token -> token ≠ "" ->
        startsWith token "Bearer " = false ->
        jwt_verify token = inr decoded ->
        AuthRoutes.auth req = AuthRoutes.NextPayload decoded
        /\ auth req d
           = Reply (failure 401 "Invalid token format. Please use Bearer authentication.")).
Proof.
  split; [|split].
  - intros r. unfold AuthRoutes.auth. repeat case_match; intros [= <-]; reflexivity.
  - intros Hh. unfold AuthRoutes.auth, AuthRoutes.header_token. by rewrite Hh.
  - intros token decoded Hh Hrep Hne Hstart Hv.
    apply truthy_JStr in Hne as Htruthy. split.
    + unfold AuthRoutes.auth, AuthRoutes.header_token. by rewrite Hh, Hrep, Htruthy, Hv.
    + unfold auth. by rewrite Hh, Htruthy, Hstart.
Qed.

End MoreAccounts.

Lemma registration_needs_four_fields_witness :
  let req := Demo.anonymous {[ "name" := JStr "Dudu"; "email" := JStr "dudu@ngo.example";
                               "password" := JStr ""; "userType" := JStr "receiver" ]} in
  AuthRoutes.register (H := Demo.library) req Demo.store
  = (message 400 "Name, email, password, and userType are required", Demo.store)
  /\ AuthRoutesBcrypt.register (H := Demo.library) "s" req Demo.store
     = (message 400 "Missing required fields", Demo.store).
Proof.
  intros req.
  apply (registration_needs_four_fields (H := Demo.library) "s" req Demo.store "password").
  - unfold signup_required. do 2 apply list_elem_of_further. apply list_elem_of_here.
  - reflexivity.
Defined.

Lemma registration_needs_a_known_role_witness :
  let req := Demo.anonymous (Demo.signup "Ada" "ada@ngo.example" "pw" "admin") in
  exists r, AuthRoutes.register (H := Demo.library) req Demo.store = (r, Demo.store)
            /\ status r = 400%nat.
Proof.
  intros req.
  apply (registration_needs_a_known_role (H := Demo.library) req Demo.store).
  - intros k Hk. unfold signup_required in Hk.
    repeat (apply elem_of_cons in Hk as [-> | Hk]); try reflexivity.
    by apply elem_of_nil in Hk.
  - discriminate.
  - discriminate.
Defined.

Lemma login_failures_look_alike_witness :
  let stranger := Demo.anonymous {[ "email" := JStr "nobody@ngo.example";
                                    "password" := JStr "secret" ]} in
  let mistaken := Demo.anonymous {[ "email" := JStr "bongani@ngo.example";
                                    "password" := JStr "guess" ]} in
  AuthRoutesBcrypt.login (H := Demo.library) stranger Demo.store
    = (message 401 "Invalid credentials", Demo.store)
  /\ AuthRoutesBcrypt.login (H := Demo.library) mistaken Demo.store
    = (message 401 "Invalid credentials", Demo.store).
Proof.
  intros stranger mistaken.
  assert (Hs : credentials_given (req_body stranger)) by (split; reflexivity).
  assert (Hm : credentials_given (req_body mistaken)) by (split; reflexivity).
  exact (proj2 (login_failures_look_alike (H := Demo.library) stranger mistaken Demo.store
                  Demo.bongani Hs Hm eq_refl eq_refl)
               "guess" (Demo.hash "secret" 10 "salt") eq_refl eq_refl eq_refl).
Defined.

Lemma token_not_yet_valid_witness :
  let req := Demo.bearer "early" ∅ JUndefined in
  auth (H := Demo.library) req Demo.store = Reply (failure 401 "Token not active yet.")
  /\ status (AuthRoutes.verify (H := Demo.library) req Demo.store).1 = 500%nat
  /\ status (AuthRoutes.me (H := Demo.library) req Demo.store).1 = 500%nat.
Proof.
  intros req.
  exact (token_not_yet_valid (H := Demo.library) req Demo.store "early"
           eq_refl eq_refl ltac:(discriminate) eq_refl).
Defined.

Lemma exported_auth_on_headers_witness :
  let req := mkReq (Some "t1") ∅ JUndefined None in
  AuthRoutes.auth (H := Demo.library) req = AuthRoutes.NextPayload (obj [("id", JNum 1)])
  /\ auth (H := Demo.library) req Demo.store
     = Reply (failure 401 "Invalid token format. Please use Bearer authentication.").
Proof.
  intros req.
  destruct (exported_auth_on_headers (H := Demo.library) req Demo.store) as (_ & _ & Hbare).
  exact (Hbare "t1" (obj [("id", JNum 1)]) eq_refl eq_refl ltac:(discriminate) eq_refl
               eq_refl).
Defined.

(* ===================================================================== *)
(** ** The helpers on user types *)
(* ===================================================================== *)

Section Helpers.
Context `{Library}.

Lemma includes_one lit v : includes [lit] v = str_is v lit.
Proof. unfold includes. simpl. apply orb_false_r. Qed.

(** X10.  The checks on the user type agree.  For a user that is there,
    [canCreateListings] passes exactly when [requireUserType(['donor'])]
    does, which is exactly when the userType is donor, and exactly then
    the create handler does not answer 403; likewise for
    [canClaimListings], receiver and the claim handler.  Nobody passes
    both, and without a user all three helpers answer 401. *)
Theorem role_checks_agree (u : row) (req : request) (d : db) :
  (canCreateListings (Some u) = None <-> get u "userType" = JStr "donor")
  /\ (requireUserType ["donor"] (Some u) = None <-> get u "userType" = JStr "donor")
  /\ (status (post_listings_handler u req d).1 ≠ 403%nat
      <-> get u "userType" = JStr "donor")
  /\ (canClaimListings (Some u) = None <-> get u "userType" = JStr "receiver")
  /\ (requireUserType ["receiver"] (Some u) = None <-> get u "userType" = JStr "receiver")
  /\ (status (patch_claim_handler u req d).1 ≠ 403%nat
      <-> get u "userType" = JStr "receiver")
  /\ ~ (canCreateListings (Some u) = None /\ canClaimListings (Some u) = None)
  /\ (forall types,
        canCreateListings None = Some (failure 401 "Authentication required.")
        /\ canClaimListings None = Some (failure 401 "Authentication required.")
        /\ requireUserType types None = Some (failure 401 "Authentication required.")).
Proof.
  assert (Hcreate : canCreateListings (Some u) = None <-> get u "userType" = JStr "donor").
  { unfold canCreateListings. rewrite <- str_is_true.
    destruct (str_is _ _); simpl; split; done. }
  assert (Hclaim : canClaimListings (Some u) = None <-> get u "userType" = JStr "receiver").
  { unfold canClaimListings. rewrite <- str_is_true.
    destruct (str_is _ _); simpl; split; done. }
  split; [exact Hcreate|]. split.
  { unfold requireUserType. rewrite includes_one, <- str_is_true.
    destruct (str_is _ _); simpl; split; done. }
  split.
  { rewrite <- str_is_true. unfold post_listings_handler.
    destruct (str_is _ "donor"); cbn [negb]; cbv iota; [|split; done].
    split; [done|]. intros _. destruct (Listing_create _ _ _) as [[? ?]|]; discriminate. }
  split; [exact Hclaim|]. split.
  { unfold requireUserType. rewrite includes_one, <- str_is_true.
    destruct (str_is _ _); simpl; split; done. }
  split.
  { rewrite <- str_is_true. unfold patch_claim_handler.
    destruct (str_is _ "receiver"); cbn [negb]; cbv iota; [|split; done].
    split; [done|]. intros _.
    destruct (findByPk _ _); [|discriminate..].
    destruct (Listing_save _ _ _). discriminate. }
  split; [|done].
  intros [Hd Hr]. apply Hcreate in Hd. apply Hclaim in Hr. congruence.
Qed.

End Helpers.

(* ===================================================================== *)
(** ** Invariants of the store *)
(* ===================================================================== *)

Section StoreInvariants.
Context `{Library}.

(** What one request can do to the store: nothing, one more User, one
    more Listing, or an UPDATE of one of the tables that names neither
    the key nor, for a User, the email. *)
Lemma run_cases o d :
  (run o d).2 = d
  \/ (exists u,
        (run o d).2 = mkDb (Users d ++ [u]) (Listings d)
        /\ get u "id" = JNum (next_pk (Users d))
        /\ findOne (Users d) "email" (get u "email") = None)
  \/ (exists l,
        (run o d).2 = mkDb (Users d) (Listings d ++ [l])
        /\ get l "id" = JNum (next_pk (Listings d)))
  \/ (exists inst fields,
        (run o d).2 = mkDb (Users d) (write inst fields (Listings d))
        /\ ("id" ∉ fields))
  \/ (exists inst fields,
        (run o d).2 = mkDb (write inst fields (Users d)) (Listings d)
        /\ ("id" ∉ fields) /\ ("email" ∉ fields)).
Proof.
  destruct o as [salt req|req|req|req|req|req|req|req|req|req|req]; simpl.
  - unfold AuthRoutesBcrypt.register.
    destruct (_ || _) eqn:Hchecks; [by left|].
    destruct (findOne _ _ _) eqn:Hfresh; [by left|].
    destruct (get (req_body req) "password") as [| | | |pw| |] eqn:Hpw; try (by left).
    destruct (User_create _ _ _) as [[user t]|] eqn:Hc; [|by left].
    apply User_create_Some in Hc as [-> ->].
    right; left. eexists. split; [reflexivity|].
    assert (Hemail : truthy (get (req_body req) "email") = true).
    { apply orb_false_elim in Hchecks as [Hchecks _].
      apply orb_false_elim in Hchecks as [Hchecks _].
      apply orb_false_elim in Hchecks as [_ Hchecks].
      by apply negb_false_iff in Hchecks. }
    split.
    + apply get_null_undefined; [|done]. unfold new_instance.
      by rewrite !get_insert_ne, get_insert_eq by done.
    + erewrite stored_user_get; [exact Hfresh| |reflexivity|].
      * intros Hin. repeat (apply elem_of_cons in Hin as [? | Hin]); try done.
        by apply elem_of_nil in Hin.
      * intros E. change (get (AuthRoutes.user_fields (req_body req)
                                 (JStr (bcrypt_hash pw 10 salt))) "email")
          with (get (req_body req) "email") in E.
        by rewrite E in Hemail.
  - left. apply login_store.
  - left. apply verify_store.
  - left. apply me_store.
  - by left.
  - unfold post_listings.
    destruct (protected_cases post_listings_handler req d) as [(r & _ & ->)|(u & _ & ->)];
      [by left|].
    unfold post_listings_handler, Listing_create.
    destruct (negb _); [by left|].
    destruct (Listing_validate _); [|by left].
    right; right; left. eexists. split; [reflexivity|].
    unfold new_instance. by rewrite !get_insert_ne, get_insert_eq by done.
  - unfold patch_claim.
    destruct (protected_cases patch_claim_handler req d) as [(r & _ & ->)|(u & _ & ->)];
      [by left|].
    unfold patch_claim_handler.
    destruct (negb _); [by left|].
    destruct (findByPk _ _) as [l| |] eqn:Hf; [|by left..].
    rewrite claim_save.
    destruct (str_is _ _); cbv zeta; cbn [snd].
    + left. apply db_eta.
    + right; right; right; left. eexists _, _. split; [reflexivity|].
      intros Hin. repeat (apply elem_of_cons in Hin as [? | Hin]); try done.
      by apply elem_of_nil in Hin.
  - left. apply get_search_store.
  - left. apply get_profile_store.
  - unfold put_profile.
    destruct (protected_cases put_profile_handler req d) as [(r & _ & ->)|(u & _ & ->)];
      [by left|].
    pose proof (profile_written_columns u (req_body req)) as Hwritten.
    destruct (put_profile_handler_cases u req d)
      as [(_ & _ & Hd)|[(_ & _ & Hu & Hl)|(_ & _ & Hl & Hu)]].
    + by left.
    + left. by apply db_ext.
    + right; right; right; right. eexists _, _. split; [|split].
      * apply db_ext; [exact Hu | exact Hl].
      * intros [Hin|Hin]%Hwritten; [|done]. revert Hin.
        apply not_a_profile_column, list_elem_of_here.
      * intros [Hin|Hin]%Hwritten; [|done]. revert Hin.
        apply not_a_profile_column, list_elem_of_further, list_elem_of_here.
  - left. apply get_stats_store.
Qed.

Lemma pk_of_get r n : get r "id" = JNum n -> pk_of r = n.
Proof. unfold pk_of. by intros ->. Qed.

Lemma pk_lt_next t r : In r t -> pk_of r < next_pk t.
Proof.
  unfold next_pk. induction t as [|x t IH]; simpl; [done|].
  intros [->|Hin]; [lia|]. specialize (IH Hin). lia.
Qed.

Lemma next_pk_positive t : 0 < next_pk t.
Proof. unfold next_pk. induction t as [|x t IH]; simpl; lia. Qed.

Lemma keyed_table_snoc t r :
  keyed_table t -> get r "id" = JNum (next_pk t) -> keyed_table (t ++ [r]).
Proof.
  intros [Hu Hk] Hid. pose proof (pk_of_get _ _ Hid) as Hpk. split.
  - rewrite fmap_app. apply NoDup_app.
    split; [done|]. split; [|apply NoDup_singleton].
    intros n Hn Hin. apply list_elem_of_singleton in Hin. subst n.
    apply list_elem_of_fmap in Hn as (x & Hx & Hin).
    apply list_elem_of_In, pk_lt_next in Hin. simpl in *. lia.
  - apply Forall_app. split; [done|]. apply Forall_singleton.
    split; [by rewrite Hpk | rewrite Hpk; apply next_pk_positive].
Qed.

Lemma keyed_table_write inst fields t :
  "id" ∉ fields -> keyed_table t -> keyed_table (write inst fields t).
Proof.
  intros Hid [Hu Hk]. unfold write. split.
  - rewrite <- list_fmap_compose.
    erewrite list_fmap_ext; [exact Hu|].
    intros i r _. simpl. destruct (pk_of r =? pk_of inst); [by apply pk_of_written | done].
  - apply Forall_fmap. eapply Forall_impl; [exact Hk|].
    intros r [Hrid Hrpos]. simpl. destruct (_ =? _); [|done].
    unfold keyed. rewrite pk_of_written by done. split; [|done].
    unfold get. rewrite lookup_union_r by by apply lookup_attributes_None.
    exact Hrid.
Qed.

Lemma run_well_keyed o d : well_keyed d -> well_keyed (run o d).2.
Proof.
  intros [HU HL].
  destruct (run_cases o d)
    as [-> | [(u & -> & Hid & _) | [(l & -> & Hid) | [(inst & fields & -> & Hid)
        | (inst & fields & -> & Hid & _)]]]]; unfold well_keyed; cbn [Users Listings].
  - done.
  - split; [by apply keyed_table_snoc | done].
  - split; [done | by apply keyed_table_snoc].
  - split; [done | by apply keyed_table_write].
  - split; [by apply keyed_table_write | done].
Qed.

Lemma exec_invariant (P : db -> Prop) :
  (forall o d, P d -> P (run o d).2) ->
  forall ops d, P d -> P (exec ops d).
Proof.
  intros Hstep ops. induction ops as [|o ops IH]; intros d Hd; [done|].
  simpl. apply IH. by apply Hstep.
Qed.

(** X11.  Keys are never shared.  Every request keeps "each row of either
    table has a positive number as its id, and no two rows of a table
    have the same"; so in every store reachable from the empty one a key
    names at most one user and at most one listing. *)
Theorem keys_stay_unique :
  (forall o d, well_keyed d -> well_keyed (run o d).2)
  /\ forall ops,
       let d := exec ops empty_db in
       well_keyed d
       /\ (forall i j r r', Users d !! i = Some r -> Users d !! j = Some r' ->
             pk_of r = pk_of r' -> i = j)
       /\ (forall i j r r', Listings d !! i = Some r -> Listings d !! j = Some r' ->
             pk_of r = pk_of r' -> i = j).
Proof.
  split; [apply run_well_keyed|]. intros ops d.
  assert (Hd : well_keyed d).
  { apply exec_invariant; [apply run_well_keyed|].
    repeat split; try apply NoDup_nil_2; constructor. }
  split; [done|]. destruct Hd as [[HU _] [HL _]].
  split; intros i j r r' Hi Hj Hpk.
  - eapply (NoDup_lookup _ i j (pk_of r) HU); rewrite list_lookup_fmap, ?Hi, ?Hj;
      simpl; congruence.
  - eapply (NoDup_lookup _ i j (pk_of r) HL); rewrite list_lookup_fmap, ?Hi, ?Hj;
      simpl; congruence.
Qed.





End StoreInvariants.

Lemma verify_and_me_agree_witness :
  let req := mkReq (Some "Bearer t2") ∅ JUndefined None in
  status (AuthRoutes.verify (H := Demo.library) req Demo.store).1
  = status (AuthRoutes.me (H := Demo.library) req Demo.store).1.
Proof.
  intros req. exact (proj1 (verify_and_me_agree (H := Demo.library) req Demo.store)).
Defined.

Lemma role_checks_agree_witness :
  canCreateListings (Some Demo.thandi) = None
  /\ canClaimListings (Some Demo.bongani) = None.
Proof.
  pose proof (role_checks_agree (H := Demo.library) Demo.thandi
                (Demo.anonymous ∅) Demo.store) as (Hdonor & _).
  pose proof (role_checks_agree (H := Demo.library) Demo.bongani
                (Demo.anonymous ∅) Demo.store) as (_ & _ & _ & Hreceiver & _).
  split; [apply Hdonor | apply Hreceiver]; reflexivity.
Defined.

Lemma keys_stay_unique_witness :
  well_keyed (exec (H := Demo.library) Demo.session empty_db).
Proof.
  exact (proj1 (proj2 (keys_stay_unique (H := Demo.library)) Demo.session)).
Defined.

